(** * home-server: a shallow embedding of the file-sharing HTTP server

    The server of [src/public/client.js] (the part after the browser
    client, headed [// server.js]) is embedded as a pure function from a
    file-system state and a request to a new state and an outcome.  The
    file [src/client.js] holds an older server without the delete route
    and the public directory; it is embedded in the same way ([Legacy]).

    Conventions.
    - A JavaScript string is a [string]; a character above U+007F is
      represented by the bytes of its UTF-8 encoding.
    - A path is the list of its components below the root [/] (POSIX);
      Node's [path.join] normalises textually, and so does [Path.join].
    - The file system is a finite map from paths to nodes.  Every handler
      is run to completion on one state (callbacks of different requests
      are not interleaved).
    - Of the limits of the file system, the one on a single name
      ([NAME_MAX], 255 bytes) is part of the model; the one on a whole
      path ([PATH_MAX], 4096 bytes) is not: paths are taken to be
      shorter.
    - The server may read and change every entry of the disk, and the
      disk has room: errors of permission and of space are not modelled.
    - An outcome is the response as it goes on the wire, or the exception
      that leaves the listener when nothing catches it. *)

From Stdlib Require Import ZArith NArith Ascii String List Bool Lia.
From stdpp Require Import base tactics option list strings gmap.

Open Scope string_scope.
Open Scope list_scope.

(** ** JavaScript string primitives used by the server *)

Module Js.

(** [s.split('/')]: the pieces of [s] between the slashes; never empty. *)
Fixpoint split_slash (s : string) : list string :=
  match s with
  | EmptyString => [EmptyString]
  | String c rest =>
      if Ascii.eqb c "/"%char then EmptyString :: split_slash rest
      else match split_slash rest with
           | piece :: pieces => String c piece :: pieces
           | [] => [String c EmptyString]
           end
  end.

(** [arr.pop()] on the result of a split: the last piece. *)
Definition pop (l : list string) : string := List.last l EmptyString.

(** [s.startsWith(p)] *)
Definition startsWith (p s : string) : bool := String.prefix p s.

(** [s.includes('/')] *)
Fixpoint has_slash (s : string) : bool :=
  match s with
  | EmptyString => false
  | String c rest => Ascii.eqb c "/"%char || has_slash rest
  end.

(** [s.endsWith('/')] *)
Fixpoint ends_with_slash (s : string) : bool :=
  match s with
  | EmptyString => false
  | String c EmptyString => Ascii.eqb c "/"%char
  | String _ rest => ends_with_slash rest
  end.

(** The one-character string of a double quote. *)
Definition dquote : string := String (ascii_of_N 34) EmptyString.

(** [s.toLowerCase()] on the ASCII letters (the only ones that can reach a
    key of the MIME table). *)
Definition lower_ascii (c : ascii) : ascii :=
  let n := N_of_ascii c in
  if (65 <=? n)%N && (n <=? 90)%N then ascii_of_N (n + 32) else c.

Fixpoint toLowerCase (s : string) : string :=
  match s with
  | EmptyString => EmptyString
  | String c rest => String (lower_ascii c) (toLowerCase rest)
  end.

(** *** decodeURIComponent *)

Definition hex_digit (c : ascii) : option N :=
  let n := N_of_ascii c in
  if (48 <=? n)%N && (n <=? 57)%N then Some (n - 48)%N
  else if (65 <=? n)%N && (n <=? 70)%N then Some (n - 55)%N
  else if (97 <=? n)%N && (n <=? 102)%N then Some (n - 87)%N
  else None.

(** A piece of the input: a character taken as it is, or the byte of an
    escape [%XY]. *)
Inductive token : Type :=
  | Raw (c : ascii)
  | Esc (b : N).

(** First pass: every [%] must be followed by two hexadecimal digits. *)
Fixpoint unescape (l : list ascii) : option (list token) :=
  match l with
  | [] => Some []
  | c :: rest =>
      if Ascii.eqb c "%"%char then
        match rest with
        | h :: l' :: rest' =>
            match hex_digit h, hex_digit l' with
            | Some hi, Some lo =>
                option_map (cons (Esc (16 * hi + lo)%N)) (unescape rest')
            | _, _ => None
            end
        | _ => None
        end
      else option_map (cons (Raw c)) (unescape rest)
  end.

Definition in_range (lo hi b : N) : bool := ((lo <=? b) && (b <=? hi))%N.

Definition cont (b : N) : bool := in_range 128 191 b.

(** Second pass: escaped bytes of 0x80 and above must spell well-formed
    UTF-8 (Unicode table 3-7), each byte of a sequence being an escape. *)
Fixpoint utf8_check (l : list token) : option (list ascii) :=
  match l with
  | [] => Some []
  | Raw c :: rest => option_map (cons c) (utf8_check rest)
  | Esc b :: rest =>
      if (b <? 128)%N then option_map (cons (ascii_of_N b)) (utf8_check rest)
      else if in_range 194 223 b then
        match rest with
        | Esc b1 :: rest' =>
            if cont b1
            then option_map (fun t => ascii_of_N b :: ascii_of_N b1 :: t)
                            (utf8_check rest')
            else None
        | _ => None
        end
      else if in_range 224 239 b then
        match rest with
        | Esc b1 :: Esc b2 :: rest' =>
            if (if (b =? 224)%N then in_range 160 191 b1
                else if (b =? 237)%N then in_range 128 159 b1
                else cont b1) && cont b2
            then option_map
                   (fun t => ascii_of_N b :: ascii_of_N b1 :: ascii_of_N b2 :: t)
                   (utf8_check rest')
            else None
        | _ => None
        end
      else if in_range 240 244 b then
        match rest with
        | Esc b1 :: Esc b2 :: Esc b3 :: rest' =>
            if (if (b =? 240)%N then in_range 144 191 b1
                else if (b =? 244)%N then in_range 128 143 b1
                else cont b1) && cont b2 && cont b3
            then option_map
                   (fun t => ascii_of_N b :: ascii_of_N b1 :: ascii_of_N b2
                             :: ascii_of_N b3 :: t)
                   (utf8_check rest')
            else None
        | _ => None
        end
      else None
  end.

(** [decodeURIComponent(s)]: [None] stands for the [URIError] it throws. *)
Definition decodeURIComponent (s : string) : option string :=
  match unescape (list_ascii_of_string s) with
  | Some toks => option_map string_of_list_ascii (utf8_check toks)
  | None => None
  end.

End Js.

(** ** Paths (Node's [path] module, POSIX flavour) *)

Module Path.

(** Components below the root, normalised: no empty component, no [.] and
    no [..]. *)
Abbreviation path := (list string).

(** A normalised path together with the trailing separator that
    [path.normalize] keeps. *)
Record fpath : Type := mk_fpath { comps : path; trailing : bool }.

(** One component of the normalisation: empty pieces and [.] vanish,
    [..] removes the previous component (and is dropped at the root). *)
Definition norm_step (stack : path) (c : string) : path :=
  if String.eqb c "" || String.eqb c "." then stack
  else if String.eqb c ".." then removelast stack
  else stack ++ [c].

(** [path.join(base, rel)] for an absolute normalised [base]:
    [normalize(base + '/' + rel)]. *)
Definition join (base : path) (rel : string) : fpath :=
  {| comps := fold_left norm_step (Js.split_slash rel) base;
     trailing := Js.ends_with_slash rel |}.

(** The suffix of [s] that starts at its last dot. *)
Fixpoint from_last_dot (s : string) : option string :=
  match s with
  | EmptyString => None
  | String c rest =>
      match from_last_dot rest with
      | Some e => Some e
      | None => if Ascii.eqb c "."%char then Some s else None
      end
  end.

(** [path.extname] of one component: from the last dot on; empty when
    there is no dot, when the only dot is the first character, and for
    [..]. *)
Definition extname_base (b : string) : string :=
  if String.eqb b ".." then ""
  else match b with
       | EmptyString => ""
       | String _ rest => default "" (from_last_dot rest)
       end.

(** [path.extname(p)]: trailing separators are skipped, so this is the
    extension of the last component. *)
Definition extname (p : fpath) : string :=
  extname_base (List.last (comps p) "").

(** The string holds a NUL byte: Node's [fs] functions throw on such a
    path before any system call. *)
Fixpoint has_nul (s : string) : bool :=
  match s with
  | EmptyString => false
  | String c rest => (N_of_ascii c =? 0)%N || has_nul rest
  end.

(** The component is longer than [NAME_MAX], 255 bytes. *)
Definition too_long (c : string) : bool := Nat.ltb 255 (String.length c).

(** The names a directory entry can bear: not empty, not [.] or [..],
    without a separator, without a NUL byte, and of 255 bytes at most. *)
Definition valid_name (n : string) : bool :=
  negb (String.eqb n "") && negb (String.eqb n ".") && negb (String.eqb n "..")
  && negb (Js.has_slash n) && negb (has_nul n) && negb (too_long n).

(** [a] is an initial segment of [b]. *)
Fixpoint is_prefix (a b : path) : bool :=
  match a, b with
  | [], _ => true
  | x :: a', y :: b' => String.eqb x y && is_prefix a' b'
  | _ :: _, [] => false
  end.

(** The text of a path, as it appears in error messages. *)
Definition to_string (p : fpath) : string :=
  match comps p with
  | [] => "/"
  | cs => (String.concat "" (map (String.append "/") cs)
           ++ (if trailing p then "/" else ""))%string
  end.

End Path.

(** ** The file system (Node's [fs] module over a POSIX file system) *)

Module Fs.

Definition bytes : Type := list Byte.byte.

(** What a directory entry can be.  A special file carries what reading it
    yields ([None]: the read fails); a dangling link is a symbolic link
    whose target is missing. *)
Inductive node : Type :=
  | File (content : bytes)
  | Dir
  | Special (stream : option bytes)
  | DanglingLink.

(** The [code] of the errors of [fs].  The last one is not an error of a
    system call: Node throws it, synchronously, from the [fs] function
    itself when the path holds a NUL byte, also where the function takes a
    callback. *)
Inductive errno : Type :=
  | ENOENT | ENOTDIR | EISDIR | EIO | EPERM | ENAMETOOLONG | ENOTEMPTY | EBUSY
  | ERR_INVALID_ARG_VALUE.

Definition code (e : errno) : string :=
  match e with
  | ENOENT => "ENOENT" | ENOTDIR => "ENOTDIR" | EISDIR => "EISDIR"
  | EIO => "EIO" | EPERM => "EPERM" | ENAMETOOLONG => "ENAMETOOLONG"
  | ENOTEMPTY => "ENOTEMPTY" | EBUSY => "EBUSY"
  | ERR_INVALID_ARG_VALUE => "ERR_INVALID_ARG_VALUE"
  end.

Definition describe (e : errno) : string :=
  match e with
  | ENOENT => "no such file or directory"
  | ENOTDIR => "not a directory"
  | EISDIR => "illegal operation on a directory"
  | EIO => "i/o error"
  | EPERM => "operation not permitted"
  | ENAMETOOLONG => "name too long"
  | ENOTEMPTY => "directory not empty"
  | EBUSY => "resource busy or locked"
  | ERR_INVALID_ARG_VALUE =>
      "The argument 'path' must be a string, Uint8Array, or URL without null bytes."
  end.

(** The call threw instead of reporting its error. *)
Definition refused {A : Type} (r : errno + A) : bool :=
  match r with inl ERR_INVALID_ARG_VALUE => true | _ => false end.

(** [err.message] of the error of system call [call] on [p] (and, for
    [rename], on the target [q]). *)
Definition message (e : errno) (call : string) (p : Path.fpath) : string :=
  (code e ++ ": " ++ describe e ++ ", " ++ call ++ " '"
   ++ Path.to_string p ++ "'")%string.

Definition message2 (e : errno) (call : string) (p q : Path.fpath) : string :=
  (message e call p ++ " -> '" ++ Path.to_string q ++ "'")%string.

Abbreviation store := (gmap (list string) node).

(** Looking a name up where no entry of that name is: the error depends
    on the name. *)
Definition missing (c : string) : errno :=
  if Path.has_nul c then ERR_INVALID_ARG_VALUE
  else if Path.too_long c then ENAMETOOLONG
  else ENOENT.

(** The entry at [p].  The root always exists and is a directory, and a
    directory of the disk is found under the name it has.  No other entry
    is found under a name with a NUL byte or of more than 255 bytes: a
    disk holds none, and the lookup fails as for a missing name. *)
Definition node_at (fs : store) (p : list string) : errno + node :=
  match p with
  | [] => inr Dir
  | _ =>
      let c := List.last p "" in
      match fs !! p with
      | Some Dir => inr Dir
      | Some n => if Path.has_nul c || Path.too_long c then inl (missing c) else inr n
      | None => inl (missing c)
      end
  end.

(** The error of a resolution that stops before the components [rest]:
    a NUL byte further on in the path comes first, Node looking for it
    before the system call is made. *)
Definition blocked (rest : list string) (e : errno) : errno :=
  if existsb Path.has_nul rest then ERR_INVALID_ARG_VALUE else e.

(** Path resolution from [cur] along [rest]: every component but the last
    must be a directory. *)
Fixpoint walk (fs : store) (cur rest : list string) : errno + node :=
  match rest with
  | [] => node_at fs cur
  | c :: rest' =>
      match node_at fs cur with
      | inr Dir => walk fs (cur ++ [c]) rest'
      | inr DanglingLink => inl (blocked rest ENOENT)
      | inr _ => inl (blocked rest ENOTDIR)
      | inl e => inl (blocked rest e)
      end
  end.

(** A trailing separator demands a directory. *)
Definition as_directory (p : Path.fpath) (n : node) : errno + node :=
  if Path.trailing p then
    match n with
    | Dir => inr Dir
    | _ => inl ENOTDIR
    end
  else inr n.

(** [lstat]: the entry itself. *)
Definition lstat (fs : store) (p : Path.fpath) : errno + node :=
  match walk fs [] (Path.comps p) with
  | inr n => as_directory p n
  | inl e => inl e
  end.

(** [stat]: as [lstat], following a final symbolic link. *)
Definition stat (fs : store) (p : Path.fpath) : errno + node :=
  match walk fs [] (Path.comps p) with
  | inr DanglingLink => inl ENOENT
  | inr n => as_directory p n
  | inl e => inl e
  end.

(** [fs.access(p, F_OK)] *)
Definition access (fs : store) (p : Path.fpath) : option errno :=
  match stat fs p with inl e => Some e | inr _ => None end.

(** A directory entry that is a regular file. *)
Definition is_regular (o : option node) : bool :=
  match o with Some (File _) => true | _ => false end.

(** [fs.statSync(p).isFile()], [inl] when [statSync] throws. *)
Definition statSync_isFile (fs : store) (p : Path.fpath) : errno + bool :=
  match stat fs p with
  | inl e => inl e
  | inr (File _) => inr true
  | inr _ => inr false
  end.

(** The name [n] such that [k = d ++ [n]], if any. *)
Fixpoint child_name (d k : list string) : option string :=
  match d, k with
  | [], [n] => Some n
  | x :: d', y :: k' => if String.eqb x y then child_name d' k' else None
  | _, _ => None
  end.

(** [fs.readdir(d)]: the names of the entries of [d], in the order the
    file system enumerates them. *)
Definition readdir (fs : store) (d : Path.fpath) : errno + list string :=
  match stat fs d with
  | inr Dir => inr (omap (child_name (Path.comps d)) (map_to_list fs).*1)
  | inr _ => inl ENOTDIR
  | inl e => inl e
  end.

(** What reading [p] to its end yields: [fs.readFile], and the data
    of [fs.createReadStream]. *)
Definition readFile (fs : store) (p : Path.fpath) : errno + bytes :=
  match stat fs p with
  | inr (File b) => inr b
  | inr Dir => inl EISDIR
  | inr (Special (Some b)) => inr b
  | inr (Special None) => inl EIO
  | inr DanglingLink => inl ENOENT
  | inl e => inl e
  end.

(** [fs.unlink(p)] *)
Definition unlink (fs : store) (p : Path.fpath) : errno + store :=
  match lstat fs p with
  | inr Dir => inl EISDIR
  | inr _ => inr (delete (Path.comps p) fs)
  | inl e => inl e
  end.

(** [fs.rename(old, new)] for a source that is not a directory, the only
    use the server makes of it (a directory source is refused here with
    [EPERM]).  Both paths are checked for a NUL byte before the system
    call.  An existing target that is not a directory is replaced; a
    target that is a directory is refused: [EBUSY] for the root,
    [ENOTEMPTY] for a directory the source lies in, [EISDIR] for any
    other. *)
Definition rename (fs : store) (old new : Path.fpath) : errno + store :=
  let target := walk fs [] (Path.comps new) in
  if refused (lstat fs old) || refused target then inl ERR_INVALID_ARG_VALUE
  else
    match lstat fs old with
    | inl e => inl e
    | inr Dir => inl EPERM
    | inr n =>
        let moved := <[Path.comps new := n]> (delete (Path.comps old) fs) in
        match target with
        | inr Dir =>
            match Path.comps new with
            | [] => inl EBUSY
            | _ => if Path.is_prefix (Path.comps new) (Path.comps old)
                   then inl ENOTEMPTY else inl EISDIR
            end
        | inr _ => if Path.trailing new then inl ENOTDIR else inr moved
        | inl ENOENT =>
            match walk fs [] (removelast (Path.comps new)) with
            | inr Dir => if Path.trailing new then inl ENOTDIR else inr moved
            | _ => inl ENOENT
            end
        | inl e => inl e
        end
    end.

End Fs.

(** ** HTTP requests and responses *)

Module Http.

(** The values the server passes to [JSON.stringify]. *)
#[local] Unset Elimination Schemes.
Inductive json : Type :=
  | JBool (b : bool)
  | JString (s : string)
  | JArray (l : list json)
  | JObject (fields : list (string * json)).
#[local] Set Elimination Schemes.

(** What [res.end] (or the piped stream) sends: [Json j] is the text
    [JSON.stringify(j)]. *)
Inductive body : Type :=
  | NoBody
  | Text (s : string)
  | Json (j : json)
  | Data (b : Fs.bytes).

(** What a request of method [m] gets of the body handed to [res.end]:
    Node sends the headers alone in answer to a HEAD request. *)
Definition on_wire (m : string) (b : body) : body :=
  if String.eqb m "HEAD" then NoBody else b.

Record response : Type := mk_response {
  status : nat;
  headers : list (string * string);
  content : body
}.

(** Exceptions that no handler catches. *)
Inductive exn : Type :=
  | URIError                (* thrown by decodeURIComponent *)
  | ERR_INVALID_CHAR        (* thrown by writeHead on an illegal header value *)
  | ERR_INVALID_ARG_VALUE.  (* thrown by fs functions on a path with a NUL byte *)

Inductive outcome : Type :=
  | Responded (r : response)
  | Threw (e : exn).

(** One file of a parsed multipart form, as formidable describes it:
    [newFilename] is the name formidable chose for the staged copy inside
    [uploadDir] (so [filepath] is [uploadDir/newFilename]). *)
Record upload : Type := mk_upload {
  newFilename : string;
  originalFilename : string;
  data : Fs.bytes
}.

(** The value of [files.myFile] in the callback of [form.parse]. *)
Inductive myFile_field : Type :=
  | Undefined
  | One (f : upload)
  | Many (l : list upload).

(** What [form.parse] hands to its callback: [err], or the files.
    [Parsed] is a form whose file parts are all under the field [myFile];
    [ParsedAlso others] is a form that has the file parts [others] under
    other fields as well. *)
Inductive parsed : Type :=
  | ParseError (msg : string)
  | Parsed (myFile : myFile_field)
  | ParsedAlso (others : list upload) (myFile : myFile_field).

Record request : Type := mk_request {
  method : string;
  url : string;
  form : parsed
}.

(** [res.setHeader(name, value)]: replaces a header of that name. *)
Fixpoint setHeader (name value : string) (hs : list (string * string))
  : list (string * string) :=
  match hs with
  | [] => [(name, value)]
  | (n, v) :: rest =>
      if String.eqb n name then (name, value) :: rest
      else (n, v) :: setHeader name value rest
  end.

(** Node refuses a header value with a character outside
    [\t\x20-\x7e\x80-\xff]; on the UTF-8 bytes of the value: an ASCII
    byte in that set, or the two bytes of a character in U+0080-U+00FF. *)
Fixpoint header_value_ok (s : string) : bool :=
  match s with
  | EmptyString => true
  | String c rest =>
      let n := N_of_ascii c in
      if (n <? 128)%N
      then ((n =? 9)%N || Js.in_range 32 126 n) && header_value_ok rest
      else if Js.in_range 194 195 n then
        match rest with
        | String c2 rest' => Js.cont (N_of_ascii c2) && header_value_ok rest'
        | EmptyString => false
        end
      else false
  end.

(** [res.writeHead(status, hs); res.end(b)] on a response whose headers
    set so far are [set]: the headers of [hs] are added to them.  [b] is
    the body as it goes on the wire: a handler that a HEAD request can
    reach passes what it hands to [res.end] through [on_wire]. *)
Definition writeHead_end (st : nat) (hs : list (string * string)) (b : body)
    (set : list (string * string)) : outcome :=
  if forallb (fun h => header_value_ok h.2) hs
  then Responded
         {| status := st;
            headers := fold_left (fun acc h => setHeader h.1 h.2 acc) hs set;
            content := b |}
  else Threw ERR_INVALID_CHAR.

(** The header of a response, if present. *)
Fixpoint getHeader (name : string) (hs : list (string * string)) : option string :=
  match hs with
  | [] => None
  | (n, v) :: rest => if String.eqb n name then Some v else getHeader name rest
  end.

End Http.

(** ** The server *)

Module Server.
Import Js Http.

Section WithInstallDir.

(** [__dirname]: the absolute, normalised directory of the script. *)
Variable dirname : list string.

Definition UPLOAD_DIR : list string := dirname ++ ["uploads"].
Definition PUBLIC_DIR : list string := dirname ++ ["public"].

Definition mimeTypes : list (string * string) :=
  [ (".html", "text/html");
    (".js", "application/javascript");
    (".css", "text/css");
    (".json", "application/json");
    (".png", "image/png");
    (".jpg", "image/jpeg");
    (".gif", "image/gif");
    (".svg", "image/svg+xml");
    (".ico", "image/x-icon") ].

(** Start-up: the upload directory is created, with its parents, when it
    does not exist ([fs.mkdirSync(UPLOAD_DIR, { recursive: true })]).  An
    existing entry on the way is left as it is; where that entry is not a
    directory [mkdirSync] throws and the server does not start, which this
    function does not tell apart. *)
Fixpoint mkdir_p (fs : Fs.store) (cur rest : list string) : Fs.store :=
  match rest with
  | [] => fs
  | c :: rest' =>
      let here := cur ++ [c] in
      mkdir_p (match fs !! here with
               | None => <[here := Fs.Dir]> fs
               | Some _ => fs
               end) here rest'
  end.

Definition startup (fs : Fs.store) : Fs.store :=
  match Fs.access fs (Path.mk_fpath UPLOAD_DIR false) with
  | None => fs
  | Some _ => mkdir_p fs [] UPLOAD_DIR
  end.

(** The three [res.setHeader] calls that open the request listener. *)
Definition cors : list (string * string) :=
  setHeader "Access-Control-Allow-Headers" "Content-Type, X-Requested-With"
    (setHeader "Access-Control-Allow-Methods" "GET, POST, DELETE, OPTIONS"
       (setHeader "Access-Control-Allow-Origin" "*" [])).

Definition json_type : list (string * string) :=
  [("Content-Type", "application/json")].

(** formidable stages every file part of the form inside [uploadDir],
    whatever its field, before the callback of [form.parse] runs. *)
Definition filepath (f : upload) : Path.fpath :=
  Path.mk_fpath (UPLOAD_DIR ++ [newFilename f]) false.

Definition stage (fs : Fs.store) (f : upload) : Fs.store :=
  <[Path.comps (filepath f) := Fs.File (data f)]> fs.

Definition staged (fs : Fs.store) (field : myFile_field) : Fs.store :=
  match field with
  | Undefined => fs
  | One f => stage fs f
  | Many l => fold_left stage l fs
  end.

(** The disk when the callback of [form.parse] runs. *)
Definition after_parse (fs : Fs.store) (frm : parsed) : Fs.store :=
  match frm with
  | ParseError _ => fs
  | Parsed field => staged fs field
  | ParsedAlso others field => staged (fold_left stage others fs) field
  end.

(** [files.myFile] *)
Definition myFile_of (frm : parsed) : myFile_field :=
  match frm with
  | ParseError _ => Undefined
  | Parsed field | ParsedAlso _ field => field
  end.

(** [files.myFile && Array.isArray(files.myFile) ? files.myFile[0] : files.myFile] *)
Definition uploadedFile (field : myFile_field) : option upload :=
  match field with
  | Undefined => None
  | One f => Some f
  | Many l => head l
  end.

(** POST /upload *)
Definition handle_upload (fs : Fs.store) (req : request) : Fs.store * outcome :=
  match form req with
  | ParseError msg =>
      (fs, writeHead_end 500 json_type
             (Json (JObject [("success", JBool false);
                             ("message", JString "File upload failed.");
                             ("error", JString msg)])) cors)
  | frm =>
      let fs1 := after_parse fs frm in
      match uploadedFile (myFile_of frm) with
      | None =>
          (fs1, writeHead_end 400 json_type
                  (Json (JObject
                     [("success", JBool false);
                      ("message",
                       JString ("No file uploaded or file field " ++ dquote
                                ++ "myFile" ++ dquote ++ " not found.")%string)]))
                  cors)
      | Some f =>
          let oldPath := filepath f in
          let fileName := originalFilename f in
          let newPath := Path.join UPLOAD_DIR fileName in
          match Fs.rename fs1 oldPath newPath with
          | inl Fs.ERR_INVALID_ARG_VALUE => (fs1, Threw ERR_INVALID_ARG_VALUE)
          | inl e =>
              (fs1, writeHead_end 500 json_type
                      (Json (JObject
                         [("success", JBool false);
                          ("message", JString "Error saving file.");
                          ("error",
                           JString (Fs.message2 e "rename" oldPath newPath))])) cors)
          | inr fs2 =>
              (fs2, writeHead_end 200 json_type
                      (Json (JObject
                         [("success", JBool true);
                          ("message", JString "File uploaded successfully!");
                          ("fileName", JString fileName)])) cors)
          end
      end
  end.

(** GET /files *)
Definition handle_files (fs : Fs.store) : Fs.store * outcome :=
  match Fs.readdir fs (Path.mk_fpath UPLOAD_DIR false) with
  | inl Fs.ERR_INVALID_ARG_VALUE => (fs, Threw ERR_INVALID_ARG_VALUE)
  | inl _ =>
      (fs, writeHead_end 500 json_type
             (Json (JObject [("success", JBool false);
                             ("message", JString "Could not list files.")])) cors)
  | inr files =>
      let fileNames :=
        List.filter
          (fun file =>
             match Fs.statSync_isFile fs (Path.join UPLOAD_DIR file) with
             | inr b => b
             | inl _ => false   (* catch (e) { return false; } *)
             end) files in
      (fs, writeHead_end 200 json_type
             (Json (JObject [("success", JBool true);
                             ("files", JArray (map JString fileNames))])) cors)
  end.

(** GET /download/:filename *)
Definition handle_download (fs : Fs.store) (req : request) : Fs.store * outcome :=
  match decodeURIComponent (pop (split_slash (url req))) with
  | None => (fs, Threw URIError)
  | Some fileName =>
      let filePath := Path.join UPLOAD_DIR fileName in
      match Fs.access fs filePath with
      | Some Fs.ERR_INVALID_ARG_VALUE => (fs, Threw ERR_INVALID_ARG_VALUE)
      | Some _ =>
          (fs, writeHead_end 404 [("Content-Type", "text/plain")]
                 (Text "File not found.") cors)
      | None =>
          (fs, writeHead_end 200
                 [("Content-Type", "application/octet-stream");
                  ("Content-Disposition",
                   ("attachment; filename=" ++ dquote ++ fileName ++ dquote)%string)]
                 (match Fs.readFile fs filePath with
                  | inr b => Data b
                  | inl _ => Text "Error downloading file."
                  end) cors)
      end
  end.

(** DELETE /delete/:filename *)
Definition handle_delete (fs : Fs.store) (req : request) : Fs.store * outcome :=
  match decodeURIComponent (pop (split_slash (url req))) with
  | None => (fs, Threw URIError)
  | Some fileName =>
      let filePath := Path.join UPLOAD_DIR fileName in
      match Fs.unlink fs filePath with
      | inl e =>
          match e with
          | Fs.ERR_INVALID_ARG_VALUE => (fs, Threw ERR_INVALID_ARG_VALUE)
          | Fs.ENOENT =>
              (fs, writeHead_end 404 json_type
                     (Json (JObject [("success", JBool false);
                                     ("message", JString "File not found.")])) cors)
          | _ =>
              (fs, writeHead_end 500 json_type
                     (Json (JObject
                        [("success", JBool false);
                         ("message",
                          JString ("Failed to delete file: "
                                   ++ Fs.message e "unlink" filePath)%string)])) cors)
          end
      | inr fs' =>
          (fs', writeHead_end 200 json_type
                  (Json (JObject [("success", JBool true);
                                  ("message", JString "File deleted successfully!")]))
                  cors)
      end
  end.

(** The fallback: static files below [PUBLIC_DIR]. *)
Definition handle_static (fs : Fs.store) (req : request) : Fs.store * outcome :=
  let requestedPath := if String.eqb (url req) "/" then "/client.html" else url req in
  let filePath := Path.join PUBLIC_DIR requestedPath in
  let extname := toLowerCase (Path.extname filePath) in
  let contentType := default "application/octet-stream" (getHeader extname mimeTypes) in
  match Fs.readFile fs filePath with
  | inl Fs.ERR_INVALID_ARG_VALUE => (fs, Threw ERR_INVALID_ARG_VALUE)
  | inl Fs.ENOENT =>
      (fs, writeHead_end 404 [("Content-Type", "text/html")]
             (on_wire (method req)
                (Text "<h1>404 Not Found</h1><p>The requested file could not be found.</p>"))
             cors)
  | inl e =>
      (fs, writeHead_end 500 []
             (on_wire (method req)
                (Text ("<h1>500 Internal Server Error: " ++ Fs.code e ++ "</h1>")%string))
             cors)
  | inr content =>
      (fs, writeHead_end 200 [("Content-Type", contentType)]
             (on_wire (method req) (Data content)) cors)
  end.

(** The request listener of [http.createServer]. *)
Definition server (fs : Fs.store) (req : request) : Fs.store * outcome :=
  if String.eqb (method req) "OPTIONS" then
    (fs, writeHead_end 204 [] NoBody cors)
  else if String.eqb (url req) "/upload" && String.eqb (method req) "POST" then
    handle_upload fs req
  else if String.eqb (url req) "/files" && String.eqb (method req) "GET" then
    handle_files fs
  else if startsWith "/download/" (url req) && String.eqb (method req) "GET" then
    handle_download fs req
  else if startsWith "/delete/" (url req) && String.eqb (method req) "DELETE" then
    handle_delete fs req
  else handle_static fs req.

End WithInstallDir.
End Server.

(** ** Notions used in the statements *)

Import Js Http Server.

(** The three cross-origin headers of the current server. *)
Definition has_cors (hs : list (string * string)) : Prop :=
  getHeader "Access-Control-Allow-Origin" hs = Some "*"
  /\ getHeader "Access-Control-Allow-Methods" hs = Some "GET, POST, DELETE, OPTIONS"
  /\ getHeader "Access-Control-Allow-Headers" hs
     = Some "Content-Type, X-Requested-With".

(** Headers written by [writeHead] under names other than the three
    cross-origin ones leave those untouched. *)
Definition foreign (h : string * string) : Prop :=
  h.1 <> "Access-Control-Allow-Origin"
  /\ h.1 <> "Access-Control-Allow-Methods"
  /\ h.1 <> "Access-Control-Allow-Headers".

(** Every handler either ends its response through [writeHead_end] on the
    headers set at the top of the listener, or throws. *)
Inductive through_cors : outcome -> Prop :=
  | through_response st hs b :
      Forall foreign hs -> through_cors (writeHead_end st hs b cors)
  | through_throw e : through_cors (Threw e).

(** The cross-origin headers of the older server kept in [src/client.js],
    which has no DELETE route. *)
Definition cors_legacy : list (string * string) :=
  setHeader "Access-Control-Allow-Headers" "Content-Type, X-Requested-With"
    (setHeader "Access-Control-Allow-Methods" "GET, POST, OPTIONS"
       (setHeader "Access-Control-Allow-Origin" "*" [])).

(** The status of the response, when there is one. *)
Definition status_of (o : outcome) : option nat :=
  match o with Responded r => Some (status r) | Threw _ => None end.

(** The body [{success: true, files: [...]}]. *)
Definition listing (files : list string) : body :=
  Json (JObject [("success", JBool true); ("files", JArray (map JString files))]).

(** The request is taken by a route that comes before the static-file
    fallback in the listener. *)
Definition other_route (req : request) : bool :=
  String.eqb (method req) "OPTIONS"
  || (String.eqb (url req) "/upload" && String.eqb (method req) "POST")
  || (String.eqb (url req) "/files" && String.eqb (method req) "GET")
  || (startsWith "/download/" (url req) && String.eqb (method req) "GET")
  || (startsWith "/delete/" (url req) && String.eqb (method req) "DELETE").

(** The headers of a response whose [writeHead] names [hs]. *)
Definition with_cors (hs : list (string * string)) : list (string * string) :=
  fold_left (fun acc h => setHeader h.1 h.2 acc) hs cors.

(** The headers of a successful download of [name]. *)
Definition attachment (name : string) : list (string * string) :=
  with_cors [("Content-Type", "application/octet-stream");
             ("Content-Disposition",
              ("attachment; filename=" ++ dquote ++ name ++ dquote)%string)].

(** The name of one NUL byte, which the segment [%00] decodes to. *)
Definition nul : string := String (ascii_of_N 0) "".

(** A concrete installation, used to run the handlers. *)
Module Demo.

Definition dir : list string := ["srv"].

(** The state after start-up on an empty disk: [/srv/uploads] exists. *)
Definition fs0 : Fs.store := startup dir ∅.

Definition GET (u : string) : request := mk_request "GET" u (Parsed Undefined).
Definition DELETE (u : string) : request := mk_request "DELETE" u (Parsed Undefined).
Definition POST_upload (f : upload) : request :=
  mk_request "POST" "/upload" (Parsed (One f)).

Definition abc : Fs.bytes := [Byte.x61; Byte.x62; Byte.x63].
Definition xyz : Fs.bytes := [Byte.x78; Byte.x79; Byte.x7a].

(** The state after uploading [hello.txt] with content [abc]. *)
Definition fs_hello : Fs.store :=
  (server dir fs0 (POST_upload (mk_upload "f3a9" "hello.txt" abc))).1.

(** A disk with a file next to the upload directory. *)
Definition fs_script : Fs.store := <[["srv"; "server.js"] := Fs.File xyz]> fs0.

(** An upload directory holding a regular file, a sub-directory, a device
    and a symbolic link to nowhere. *)
Definition fs_mixed : Fs.store :=
  <[["srv"; "uploads"; "lost"] := Fs.DanglingLink]>
    (<[["srv"; "uploads"; "tty"] := Fs.Special None]>
       (<[["srv"; "uploads"; "photos"] := Fs.Dir]> fs_hello)).

(** A stored file whose name holds a line feed. *)
Definition two_lines : string := String "a" (String (ascii_of_N 10) "b").

Definition fs_two_lines : Fs.store :=
  <[["srv"; "uploads"; two_lines] := Fs.File abc]> fs0.

(** A disk with the client page in the public directory. *)
Definition page : Fs.bytes := [Byte.x3c; Byte.x68; Byte.x31; Byte.x3e].

Definition fs_page : Fs.store :=
  <[["srv"; "public"; "client.html"] := Fs.File page]>
    (<[["srv"; "public"] := Fs.Dir]> fs0).

(** A file name with a NUL byte in it. *)
Definition nul_name : string := String "a" (String (ascii_of_N 0) "b").

(** The UTF-8 bytes of a name whose first character is U+65E5, above
    U+00FF. *)
Definition sun_txt : string :=
  String (ascii_of_N 230) (String (ascii_of_N 151) (String (ascii_of_N 165) ".txt")).

(** A disk that stores a file under that name. *)
Definition fs_sun : Fs.store := <[["srv"; "uploads"; sun_txt] := Fs.File abc]> fs0.

(** A name of 256 bytes. *)
Definition long_name : string :=
  String.concat "" (repeat "0123456789abcdef" 16).

End Demo.

(** The headers of every JSON response: the cross-origin ones and the
    content type. *)
Definition json_headers : list (string * string) :=
  [ ("Access-Control-Allow-Origin", "*");
    ("Access-Control-Allow-Methods", "GET, POST, DELETE, OPTIONS");
    ("Access-Control-Allow-Headers", "Content-Type, X-Requested-With");
    ("Content-Type", "application/json") ].

(** The body [{success: false, message: m}] and its variants. *)
Definition failure (m : string) : body :=
  Json (JObject [("success", JBool false); ("message", JString m)]).

Definition failure_with (m diagnostic : string) : body :=
  Json (JObject [("success", JBool false); ("message", JString m);
                 ("error", JString diagnostic)]).

Definition success (m : string) (extra : list (string * json)) : body :=
  Json (JObject (("success", JBool true) :: ("message", JString m) :: extra)).

(** ** Further notions used in the statements *)

(** [obj[k]] on the fields of an object literal. *)
Fixpoint lookup_field (k : string) (fields : list (string * json)) : option json :=
  match fields with
  | [] => None
  | (k', v) :: rest => if String.eqb k' k then Some v else lookup_field k rest
  end.

(** The routes that answer in JSON: upload, listing and delete. *)
Definition json_route (req : request) : bool :=
  negb (String.eqb (method req) "OPTIONS")
  && ((String.eqb (url req) "/upload" && String.eqb (method req) "POST")
      || (String.eqb (url req) "/files" && String.eqb (method req) "GET")
      || (startsWith "/delete/" (url req) && String.eqb (method req) "DELETE")).

(** [s.includes('%')] *)
Fixpoint has_percent (s : string) : bool :=
  match s with
  | EmptyString => false
  | String c rest => Ascii.eqb c "%"%char || has_percent rest
  end.

(** ** [encodeURIComponent], which the browser client applies to file names *)

Module Uri.

(** The characters [encodeURIComponent] leaves alone: letters, digits and
    [-_.!~*'()]. *)
Definition unreserved (c : ascii) : bool :=
  let n := N_of_ascii c in
  in_range 65 90 n || in_range 97 122 n || in_range 48 57 n
  || (n =? 45)%N || (n =? 95)%N || (n =? 46)%N || (n =? 33)%N || (n =? 126)%N
  || (n =? 42)%N || (n =? 39)%N || (n =? 40)%N || (n =? 41)%N.

(** The upper-case hexadecimal digit of [d < 16]. *)
Definition hex_char (d : N) : ascii :=
  if (d <? 10)%N then ascii_of_N (48 + d) else ascii_of_N (55 + d).

(** The escape [%XY] of one byte. *)
Definition escape (c : ascii) : list ascii :=
  let n := N_of_ascii c in
  ["%"%char; hex_char (n / 16); hex_char (n mod 16)].

Definition encode_byte (c : ascii) : list ascii :=
  if unreserved c then [c] else escape c.

(** The bytes are well-formed UTF-8 (Unicode table 3-7): the string has no
    lone surrogate. *)
Fixpoint well_formed (l : list ascii) : bool :=
  match l with
  | [] => true
  | c :: rest =>
      let b := N_of_ascii c in
      if (b <? 128)%N then well_formed rest
      else if in_range 194 223 b then
        match rest with
        | c1 :: rest' => cont (N_of_ascii c1) && well_formed rest'
        | _ => false
        end
      else if in_range 224 239 b then
        match rest with
        | c1 :: c2 :: rest' =>
            (if (b =? 224)%N then in_range 160 191 (N_of_ascii c1)
             else if (b =? 237)%N then in_range 128 159 (N_of_ascii c1)
             else cont (N_of_ascii c1))
            && cont (N_of_ascii c2) && well_formed rest'
        | _ => false
        end
      else if in_range 240 244 b then
        match rest with
        | c1 :: c2 :: c3 :: rest' =>
            (if (b =? 240)%N then in_range 144 191 (N_of_ascii c1)
             else if (b =? 244)%N then in_range 128 143 (N_of_ascii c1)
             else cont (N_of_ascii c1))
            && cont (N_of_ascii c2) && cont (N_of_ascii c3) && well_formed rest'
        | _ => false
        end
      else false
  end.

(** How [decodeURIComponent] reads the encoding of one byte back. *)
Definition token_of (c : ascii) : token :=
  if unreserved c then Raw c else Esc (N_of_ascii c).

(** [encodeURIComponent(s)]: every byte of the UTF-8 encoding that is not
    unreserved becomes an escape; [None] stands for the [URIError] thrown
    on a lone surrogate. *)
Definition encodeURIComponent (s : string) : option string :=
  let l := list_ascii_of_string s in
  if well_formed l
  then Some (string_of_list_ascii (flat_map encode_byte l))
  else None.

End Uri.

(** What follows a [%] does not start with two hexadecimal digits. *)
Definition bad_escape (rest : list ascii) : bool :=
  match rest with
  | h :: l :: _ =>
      match hex_digit h, hex_digit l with
      | Some _, Some _ => false
      | _, _ => true
      end
  | _ => true
  end.

(** ** The browser client of [src/public/client.js]: the requests it sends *)

Module Client.

(** The path of the URL [`${API_BASE_URL}/<route>/${segment}`] as the
    browser requests it: the URL parser drops a segment [.] and lets a
    segment [..] remove the one before it. *)
Definition request_path (route segment : string) : string :=
  if String.eqb segment "." then ("/" ++ route ++ "/")%string
  else if String.eqb segment ".." then "/"
  else ("/" ++ route ++ "/" ++ segment)%string.

(** The request of [deleteFile(fileName)]; [None] when
    [encodeURIComponent] throws (the function then ends in its [catch]). *)
Definition delete_request (fileName : string) : option request :=
  match Uri.encodeURIComponent fileName with
  | Some e => Some (mk_request "DELETE" (request_path "delete" e) (Parsed Undefined))
  | None => None
  end.

(** The request behind the Download link that [listFiles] writes for
    [fileName]. *)
Definition download_request (fileName : string) : option request :=
  match Uri.encodeURIComponent fileName with
  | Some e => Some (mk_request "GET" (request_path "download" e) (Parsed Undefined))
  | None => None
  end.

End Client.

(** ** The older server of [src/client.js] *)

Module Legacy.

Section WithInstallDir.

Variable dirname : list string.

Definition text_plain : list (string * string) := [("Content-Type", "text/plain")].

(** POST /upload *)
Definition handle_upload (fs : Fs.store) (req : request) : Fs.store * outcome :=
  match form req with
  | ParseError msg =>
      (fs, writeHead_end 500 json_type
             (Json (JObject [("success", JBool false);
                             ("message", JString "File upload failed.");
                             ("error", JString msg)])) cors_legacy)
  | frm =>
      let fs1 := after_parse dirname fs frm in
      match uploadedFile (myFile_of frm) with
      | None =>
          (fs1, writeHead_end 400 json_type
                  (Json (JObject
                     [("success", JBool false);
                      ("message",
                       JString ("No file uploaded or file field " ++ dquote
                                ++ "myFile" ++ dquote ++ " not found.")%string)]))
                  cors_legacy)
      | Some f =>
          let oldPath := filepath dirname f in
          let fileName := originalFilename f in
          let newPath := Path.join (UPLOAD_DIR dirname) fileName in
          match Fs.rename fs1 oldPath newPath with
          | inl Fs.ERR_INVALID_ARG_VALUE => (fs1, Threw ERR_INVALID_ARG_VALUE)
          | inl e =>
              (fs1, writeHead_end 500 json_type
                      (Json (JObject
                         [("success", JBool false);
                          ("message", JString "Error saving file.");
                          ("error",
                           JString (Fs.message2 e "rename" oldPath newPath))]))
                      cors_legacy)
          | inr fs2 =>
              (fs2, writeHead_end 200 json_type
                      (Json (JObject
                         [("success", JBool true);
                          ("message", JString "File uploaded successfully!");
                          ("fileName", JString fileName)])) cors_legacy)
          end
      end
  end.

(** GET /files *)
Definition handle_files (fs : Fs.store) : Fs.store * outcome :=
  match Fs.readdir fs (Path.mk_fpath (UPLOAD_DIR dirname) false) with
  | inl Fs.ERR_INVALID_ARG_VALUE => (fs, Threw ERR_INVALID_ARG_VALUE)
  | inl _ =>
      (fs, writeHead_end 500 json_type
             (Json (JObject [("success", JBool false);
                             ("message", JString "Could not list files.")]))
             cors_legacy)
  | inr files =>
      let fileNames :=
        List.filter
          (fun file =>
             match Fs.statSync_isFile fs (Path.join (UPLOAD_DIR dirname) file) with
             | inr b => b
             | inl _ => false
             end) files in
      (fs, writeHead_end 200 json_type
             (Json (JObject [("success", JBool true);
                             ("files", JArray (map JString fileNames))]))
             cors_legacy)
  end.

(** GET /download/:filename *)
Definition handle_download (fs : Fs.store) (req : request) : Fs.store * outcome :=
  match decodeURIComponent (pop (split_slash (url req))) with
  | None => (fs, Threw URIError)
  | Some fileName =>
      let filePath := Path.join (UPLOAD_DIR dirname) fileName in
      match Fs.access fs filePath with
      | Some Fs.ERR_INVALID_ARG_VALUE => (fs, Threw ERR_INVALID_ARG_VALUE)
      | Some _ =>
          (fs, writeHead_end 404 text_plain (Text "File not found.") cors_legacy)
      | None =>
          (fs, writeHead_end 200
                 [("Content-Type", "application/octet-stream");
                  ("Content-Disposition",
                   ("attachment; filename=" ++ dquote ++ fileName ++ dquote)%string)]
                 (match Fs.readFile fs filePath with
                  | inr b => Data b
                  | inl _ => Text "Error downloading file."
                  end) cors_legacy)
      end
  end.

(** GET /client.js: the script next to the server. *)
Definition handle_client_js (fs : Fs.store) : Fs.store * outcome :=
  match Fs.readFile fs (Path.join dirname "client.js") with
  | inl Fs.ERR_INVALID_ARG_VALUE => (fs, Threw ERR_INVALID_ARG_VALUE)
  | inl _ =>
      (fs, writeHead_end 500 text_plain
             (Text "Internal Server Error: Could not load JavaScript file.")
             cors_legacy)
  | inr data =>
      (fs, writeHead_end 200 [("Content-Type", "text/javascript")] (Data data)
             cors_legacy)
  end.

(** Everything else: the client page. *)
Definition handle_fallback (fs : Fs.store) (req : request) : Fs.store * outcome :=
  match Fs.readFile fs (Path.join dirname "client.html") with
  | inl Fs.ERR_INVALID_ARG_VALUE => (fs, Threw ERR_INVALID_ARG_VALUE)
  | inl _ =>
      (fs, writeHead_end 500 text_plain
             (on_wire (method req)
                (Text "Internal Server Error: Could not load client page."))
             cors_legacy)
  | inr data =>
      (fs, writeHead_end 200 [("Content-Type", "text/html")]
             (on_wire (method req) (Data data)) cors_legacy)
  end.

(** The request listener. *)
Definition server (fs : Fs.store) (req : request) : Fs.store * outcome :=
  if String.eqb (method req) "OPTIONS" then
    (fs, writeHead_end 204 [] NoBody cors_legacy)
  else if String.eqb (url req) "/upload" && String.eqb (method req) "POST" then
    handle_upload fs req
  else if String.eqb (url req) "/files" && String.eqb (method req) "GET" then
    handle_files fs
  else if startsWith "/download/" (url req) && String.eqb (method req) "GET" then
    handle_download fs req
  else if String.eqb (url req) "/client.js" && String.eqb (method req) "GET" then
    handle_client_js fs
  else handle_fallback fs req.

End WithInstallDir.

(** The routes the older server shares with the current one. *)
Definition shared_route (req : request) : bool :=
  String.eqb (method req) "OPTIONS"
  || (String.eqb (url req) "/upload" && String.eqb (method req) "POST")
  || (String.eqb (url req) "/files" && String.eqb (method req) "GET")
  || (startsWith "/download/" (url req) && String.eqb (method req) "GET").

(** The outcome with the older server's list of allowed methods. *)
Definition relabel (o : outcome) : outcome :=
  match o with
  | Responded r =>
      Responded (mk_response (status r)
                   (setHeader "Access-Control-Allow-Methods" "GET, POST, OPTIONS"
                      (headers r))
                   (content r))
  | Threw e => Threw e
  end.

(** The three cross-origin headers of the older server. *)
Definition has_cors (hs : list (string * string)) : Prop :=
  getHeader "Access-Control-Allow-Origin" hs = Some "*"
  /\ getHeader "Access-Control-Allow-Methods" hs = Some "GET, POST, OPTIONS"
  /\ getHeader "Access-Control-Allow-Headers" hs
     = Some "Content-Type, X-Requested-With".

End Legacy.

(** [s.includes('.')] *)
Fixpoint has_dot (s : string) : bool :=
  match s with
  | EmptyString => false
  | String c rest => Ascii.eqb c "."%char || has_dot rest
  end.

(** ** Sanity checks of the primitives *)

Example split_download :
  Js.split_slash "/download/a%20b.txt" = [""; "download"; "a%20b.txt"].
Proof. reflexivity. Qed.

Example decode_space : Js.decodeURIComponent "a%20b.txt" = Some "a b.txt".
Proof. reflexivity. Qed.

Example decode_lonely_percent : Js.decodeURIComponent "%" = None.
Proof. reflexivity. Qed.

Example decode_bad_utf8 : Js.decodeURIComponent "%C3" = None.
Proof. reflexivity. Qed.

Example decode_slash : Js.decodeURIComponent "..%2Fserver.js" = Some "../server.js".
Proof. reflexivity. Qed.

Example join_plain :
  Path.join ["srv"; "uploads"] "hello.txt"
  = Path.mk_fpath ["srv"; "uploads"; "hello.txt"] false.
Proof. reflexivity. Qed.

Example join_dotdot :
  Path.join ["srv"; "uploads"] "../server.js"
  = Path.mk_fpath ["srv"; "server.js"] false.
Proof. reflexivity. Qed.

Example join_empty :
  Path.join ["srv"; "uploads"] "" = Path.mk_fpath ["srv"; "uploads"] false.
Proof. reflexivity. Qed.

Example extname_html : Path.extname (Path.join ["srv"; "public"] "/client.html") = ".html".
Proof. reflexivity. Qed.

Example extname_hidden : Path.extname (Path.join ["srv"; "public"] "/.bashrc") = "".
Proof. reflexivity. Qed.

(** ** Properties of the request listener *)

(** *** Cross-origin headers *)

Lemma getHeader_setHeader_other (n name v : string) (hs : list (string * string)) :
  n <> name -> getHeader n (setHeader name v hs) = getHeader n hs.
Proof.
  intros Hne. induction hs as [|[n' v'] hs IH]; simpl.
  - destruct (String.eqb_spec name n); congruence.
  - destruct (String.eqb_spec n' name) as [->|Hn']; simpl.
    + destruct (String.eqb_spec name n); congruence.
    + now rewrite IH.
Qed.

Lemma getHeader_setHeader_same (name v : string) (hs : list (string * string)) :
  getHeader name (setHeader name v hs) = Some v.
Proof.
  induction hs as [|[n' v'] hs IH]; simpl.
  - now rewrite String.eqb_refl.
  - destruct (String.eqb_spec n' name) as [->|Hn']; simpl.
    + now rewrite String.eqb_refl.
    + destruct (String.eqb_spec n' name); [congruence | exact IH].
Qed.

Lemma fold_setHeader_cors (hs set : list (string * string)) :
  Forall foreign hs -> has_cors set ->
  has_cors (fold_left (fun acc h => setHeader h.1 h.2 acc) hs set).
Proof.
  intros Hf. revert set.
  induction Hf as [|h hs (H1 & H2 & H3) _ IH]; intros set Hc; simpl; [exact Hc|].
  apply IH. destruct Hc as (C1 & C2 & C3).
  unfold has_cors. rewrite !getHeader_setHeader_other by congruence. auto.
Qed.

Lemma writeHead_end_cors st hs b r :
  Forall foreign hs ->
  writeHead_end st hs b cors = Responded r -> has_cors (headers r).
Proof.
  intros Hf. unfold writeHead_end.
  destruct (forallb _ hs); [|discriminate].
  intros [= <-]. simpl. apply fold_setHeader_cors; [exact Hf|].
  repeat split.
Qed.

#[local] Ltac foreign_headers :=
  repeat (constructor; [repeat split; simpl; discriminate|]); constructor.

#[local] Ltac by_cases_on_handler :=
  repeat case_match; cbn [snd];
  first [apply through_throw | apply through_response; foreign_headers].

Lemma upload_through_cors dirname fs req :
  through_cors (handle_upload dirname fs req).2.
Proof. unfold handle_upload. by_cases_on_handler. Qed.

Lemma files_through_cors dirname fs :
  through_cors (handle_files dirname fs).2.
Proof. unfold handle_files. by_cases_on_handler. Qed.

Lemma download_through_cors dirname fs req :
  through_cors (handle_download dirname fs req).2.
Proof. unfold handle_download. by_cases_on_handler. Qed.

Lemma delete_through_cors dirname fs req :
  through_cors (handle_delete dirname fs req).2.
Proof. unfold handle_delete. by_cases_on_handler. Qed.

Lemma static_through_cors dirname fs req :
  through_cors (handle_static dirname fs req).2.
Proof. unfold handle_static. by_cases_on_handler. Qed.

Lemma server_through_cors dirname fs req :
  through_cors (server dirname fs req).2.
Proof.
  unfold server.
  repeat case_match;
    auto using upload_through_cors, files_through_cors, download_through_cors,
      delete_through_cors, static_through_cors.
  cbn [snd]. apply through_response. constructor.
Qed.

(** C9. Every response of the server, whatever the route and the outcome,
    carries [Access-Control-Allow-Origin: *],
    [Access-Control-Allow-Methods: GET, POST, DELETE, OPTIONS] and
    [Access-Control-Allow-Headers: Content-Type, X-Requested-With]. *)
Theorem cors_on_every_response (dirname : list string) (fs : Fs.store)
    (req : request) (r : response) :
  (server dirname fs req).2 = Responded r -> has_cors (headers r).
Proof.
  intros H. pose proof (server_through_cors dirname fs req) as T.
  rewrite H in T. inversion T as [st hs b Hf Heq|].
  eapply writeHead_end_cors; eassumption.
Qed.

Lemma cors_on_every_response_witness :
  exists r, (server Demo.dir Demo.fs0 (Demo.GET "/files")).2 = Responded r
            /\ has_cors (headers r).
Proof.
  eexists. split; [vm_compute; reflexivity|].
  apply (cors_on_every_response Demo.dir Demo.fs0 (Demo.GET "/files")).
  vm_compute. reflexivity.
Defined.

(** The older server of [src/client.js] announces no DELETE method. *)
Example cors_legacy_methods :
  getHeader "Access-Control-Allow-Methods" cors_legacy = Some "GET, POST, OPTIONS".
Proof. reflexivity. Qed.

(** *** Exceptions that leave the listener *)

(** C3 (evaluation at the failing input). A download or delete request
    whose last path segment is a malformed escape makes
    [decodeURIComponent] throw; nothing catches the [URIError], no
    response is written and the exception leaves the request listener. *)
Theorem malformed_escape_leaves_listener (dirname : list string)
    (fs : Fs.store) (frm : parsed) :
  server dirname fs (mk_request "GET" "/download/%" frm) = (fs, Threw URIError)
  /\ server dirname fs (mk_request "DELETE" "/delete/%" frm) = (fs, Threw URIError).
Proof. split; reflexivity. Qed.

(** *** Upload *)

Lemma writeHead_end_json (st : nat) (b : body) :
  writeHead_end st json_type b cors = Responded (mk_response st json_headers b).
Proof. reflexivity. Qed.

(** The response of POST /upload, case by case. *)
Lemma upload_cases (dirname : list string) (fs : Fs.store) (frm : parsed) :
  server dirname fs (mk_request "POST" "/upload" frm) =
  match frm with
  | ParseError msg =>
      (fs, Responded (mk_response 500 json_headers
                        (failure_with "File upload failed." msg)))
  | _ =>
      let fs1 := after_parse dirname fs frm in
      match uploadedFile (myFile_of frm) with
      | None =>
          (fs1,
           Responded (mk_response 400 json_headers
                        (failure ("No file uploaded or file field " ++ dquote
                                  ++ "myFile" ++ dquote ++ " not found.")%string)))
      | Some f =>
          let newPath := Path.join (UPLOAD_DIR dirname) (originalFilename f) in
          match Fs.rename fs1 (filepath dirname f) newPath with
          | inl Fs.ERR_INVALID_ARG_VALUE => (fs1, Threw ERR_INVALID_ARG_VALUE)
          | inl e =>
              (fs1,
               Responded (mk_response 500 json_headers
                            (failure_with "Error saving file."
                               (Fs.message2 e "rename" (filepath dirname f) newPath))))
          | inr fs2 =>
              (fs2,
               Responded (mk_response 200 json_headers
                            (success "File uploaded successfully!"
                               [("fileName", JString (originalFilename f))])))
          end
      end
  end.
Proof.
  change (server dirname fs (mk_request "POST" "/upload" frm))
    with (handle_upload dirname fs (mk_request "POST" "/upload" frm)).
  unfold handle_upload. cbn [form].
  destruct frm; [reflexivity| |]; cbv zeta;
    repeat case_match; rewrite ?writeHead_end_json; reflexivity.
Qed.

(** *** Paths *)

Lemma split_slash_plain (s : string) :
  has_slash s = false -> split_slash s = [s].
Proof.
  induction s as [|c s IH]; simpl; [reflexivity|].
  destruct (Ascii.eqb c "/"); simpl; [discriminate|].
  intros H. now rewrite (IH H).
Qed.

Lemma ends_with_slash_plain (s : string) :
  has_slash s = false -> ends_with_slash s = false.
Proof.
  induction s as [|c s IH]; simpl; [reflexivity|].
  destruct (Ascii.eqb c "/"); simpl; [discriminate|].
  intros H. destruct s; [reflexivity | exact (IH H)].
Qed.

Lemma valid_name_facts (n : string) :
  Path.valid_name n = true ->
  n <> "" /\ n <> "." /\ n <> ".." /\ has_slash n = false.
Proof.
  unfold Path.valid_name. intros H.
  repeat (apply andb_true_iff in H as [H ?]).
  repeat match goal with Hn : negb _ = true |- _ => apply negb_true_iff in Hn end.
  repeat match goal with Hn : String.eqb _ _ = false |- _ => apply String.eqb_neq in Hn end.
  auto.
Qed.

(** A valid entry name passes the checks of Node and of the kernel. *)
Lemma valid_name_good (n : string) :
  Path.valid_name n = true -> Path.has_nul n = false /\ Path.too_long n = false.
Proof.
  unfold Path.valid_name. intros H.
  repeat (apply andb_true_iff in H as [H ?]).
  repeat match goal with Hn : negb _ = true |- _ => apply negb_true_iff in Hn end.
  auto.
Qed.

(** Joining one plain component appends it. *)
Lemma join_one_component (base : list string) (n : string) :
  n <> "" -> n <> "." -> n <> ".." -> has_slash n = false ->
  Path.join base n = Path.mk_fpath (base ++ [n]) false.
Proof.
  intros H0 H1 H2 Hs. apply String.eqb_neq in H0, H1, H2. unfold Path.join.
  rewrite (split_slash_plain _ Hs), (ends_with_slash_plain _ Hs).
  simpl. unfold Path.norm_step. now rewrite H0, H1, H2.
Qed.

(** Joining a valid entry name appends one component. *)
Lemma join_valid_name (base : list string) (n : string) :
  Path.valid_name n = true ->
  Path.join base n = Path.mk_fpath (base ++ [n]) false.
Proof.
  intros H. destruct (valid_name_facts n H) as (H0 & H1 & H2 & Hs).
  now apply join_one_component.
Qed.

(** [..] as first component leaves the upload directory. *)
Lemma join_parent (dirname : list string) :
  Path.join (UPLOAD_DIR dirname) "../server.js"
  = Path.mk_fpath (dirname ++ ["server.js"]) false.
Proof.
  unfold Path.join, UPLOAD_DIR. simpl. unfold Path.norm_step at 2. simpl.
  now rewrite removelast_last.
Qed.

(** *** Path resolution *)

Lemma blocked_app (l1 l2 : list string) (e : Fs.errno) :
  Fs.blocked (l1 ++ l2) e = Fs.blocked l2 (Fs.blocked l1 e).
Proof.
  unfold Fs.blocked. rewrite existsb_app.
  destruct (existsb Path.has_nul l1), (existsb Path.has_nul l2); reflexivity.
Qed.



Lemma missing_good (c : string) :
  Path.has_nul c = false -> Path.too_long c = false -> Fs.missing c = Fs.ENOENT.
Proof. unfold Fs.missing. now intros -> ->. Qed.

Section Walk.

Context (fs : Fs.store).

(** The entry under a name that passes the checks. *)
Lemma node_at_good (p : list string) (c : string) :
  Path.has_nul c = false -> Path.too_long c = false ->
  Fs.node_at fs (p ++ [c])
  = match fs !! (p ++ [c]) with Some n => inr n | None => inl Fs.ENOENT end.
Proof.
  intros Hn Hl. unfold Fs.node_at.
  destruct (p ++ [c]) eqn:E; [destruct p; discriminate|]. rewrite <- E.
  rewrite last_last, Hn, Hl, (missing_good c Hn Hl).
  destruct (fs !! (p ++ [c])) as [[]|]; reflexivity.
Qed.

(** What is found is what the disk holds. *)
Lemma node_at_lookup (p : list string) (n : Fs.node) :
  Fs.node_at fs p = inr n -> p <> [] -> fs !! p = Some n.
Proof.
  unfold Fs.node_at. destruct p as [|x p]; [congruence|]. cbv zeta.
  destruct (fs !! (x :: p)) as [[]|]; try congruence;
    destruct (_ || _); congruence.
Qed.

Lemma node_at_dir (p : list string) :
  fs !! p = Some Fs.Dir -> Fs.node_at fs p = inr Fs.Dir.
Proof. unfold Fs.node_at. destruct p; [reflexivity|]. now intros ->. Qed.

(** A name that is found and is not a directory passes the checks. *)
Lemma node_at_found_good (p : list string) (n : Fs.node) :
  Fs.node_at fs p = inr n -> n <> Fs.Dir -> p <> [] ->
  Path.has_nul (List.last p "") = false /\ Path.too_long (List.last p "") = false.
Proof.
  unfold Fs.node_at. destruct p as [|x p]; [congruence|]. cbv zeta.
  intros H Hn _.
  destruct (fs !! (x :: p)) as [[]|]; try congruence;
    destruct (Path.has_nul _), (Path.too_long _); simpl in H; try discriminate;
    auto; congruence.
Qed.


Lemma walk_snoc (cur a : list string) (c : string) :
  Fs.walk fs cur (a ++ [c]) =
  match Fs.walk fs cur a with
  | inr Fs.Dir => Fs.node_at fs (cur ++ a ++ [c])
  | inr Fs.DanglingLink => inl (Fs.blocked [c] Fs.ENOENT)
  | inr _ => inl (Fs.blocked [c] Fs.ENOTDIR)
  | inl e => inl (Fs.blocked [c] e)
  end.
Proof.
  revert cur. induction a as [|x a IH]; intros cur.
  - simpl. destruct (Fs.node_at fs cur) as [e|[]]; reflexivity.
  - cbn [app Fs.walk].
    change (x :: a ++ [c]) with ((x :: a) ++ [c]).
    destruct (Fs.node_at fs cur) as [e|[]]; rewrite ?blocked_app; try reflexivity.
    rewrite IH. now rewrite <- app_assoc.
Qed.

(** A successful resolution ends at the entry stored under the path. *)
Lemma walk_lookup (cur rest : list string) (n : Fs.node) :
  Fs.walk fs cur rest = inr n -> cur ++ rest <> [] ->
  fs !! (cur ++ rest) = Some n.
Proof.
  revert cur. induction rest as [|c rest IH]; intros cur; simpl.
  - rewrite app_nil_r. apply node_at_lookup.
  - destruct (Fs.node_at fs cur) as [e|[]]; try discriminate.
    intros H _. rewrite (app_assoc cur [c] rest : cur ++ c :: rest = _).
    apply IH; [exact H|]. destruct cur; discriminate.
Qed.

(** Every proper prefix of a resolved path is a directory. *)
Lemma walk_above (cur rest : list string) (r : Fs.node) :
  Fs.walk fs cur rest = inr r ->
  forall a b, rest = a ++ b -> b <> [] -> Fs.node_at fs (cur ++ a) = inr Fs.Dir.
Proof.
  revert cur. induction rest as [|c rest IH]; intros cur H a b Hab Hb.
  - destruct a; destruct b; try discriminate. congruence.
  - simpl in H. destruct (Fs.node_at fs cur) as [e|[]] eqn:Hcur; try discriminate.
    destruct a as [|x a].
    + now rewrite app_nil_r.
    + injection Hab as <- ->.
      rewrite (app_assoc cur [c] a : cur ++ c :: a = _).
      eapply IH; eauto.
Qed.


(** The last component of a path that resolves to something else than a
    directory passes the checks. *)
Lemma walk_found_good (q : list string) (c : string) (n : Fs.node) :
  Fs.walk fs [] (q ++ [c]) = inr n -> n <> Fs.Dir ->
  Path.has_nul c = false /\ Path.too_long c = false.
Proof.
  rewrite walk_snoc. intros H Hn.
  destruct (Fs.walk fs [] q) as [e|[]]; try discriminate.
  simpl in H. apply node_at_found_good in H; [|exact Hn|destruct q; discriminate].
  now rewrite last_last in H.
Qed.

End Walk.

(** Two stores that agree on the prefixes of a path resolve it alike. *)
Lemma walk_agree (fs fs' : Fs.store) (cur rest : list string) :
  (forall a b, rest = a ++ b -> Fs.node_at fs (cur ++ a) = Fs.node_at fs' (cur ++ a)) ->
  Fs.walk fs cur rest = Fs.walk fs' cur rest.
Proof.
  revert cur. induction rest as [|c rest IH]; intros cur H; simpl.
  - specialize (H [] [] eq_refl). now rewrite app_nil_r in H.
  - pose proof (H [] (c :: rest) eq_refl) as H0. rewrite app_nil_r in H0.
    rewrite <- H0. destruct (Fs.node_at fs cur) as [e|[]]; try reflexivity.
    apply IH. intros a b ->.
    rewrite <- (app_assoc cur [c] a). apply (H (c :: a) b). reflexivity.
Qed.

(** *** Routing *)

Lemma route_files dirname fs frm :
  server dirname fs (mk_request "GET" "/files" frm) = handle_files dirname fs.
Proof. reflexivity. Qed.

Lemma route_download dirname fs u frm :
  startsWith "/download/" u = true ->
  server dirname fs (mk_request "GET" u frm)
  = handle_download dirname fs (mk_request "GET" u frm).
Proof.
  intros H. unfold server. cbn [method url].
  change (String.eqb "GET" "OPTIONS") with false.
  change (String.eqb "GET" "POST") with false.
  change (String.eqb "GET" "GET") with true.
  rewrite andb_false_r, andb_true_r, H.
  destruct (String.eqb_spec u "/files") as [->|_]; [discriminate H|reflexivity].
Qed.

Lemma route_delete dirname fs u frm :
  startsWith "/delete/" u = true ->
  server dirname fs (mk_request "DELETE" u frm)
  = handle_delete dirname fs (mk_request "DELETE" u frm).
Proof.
  intros H. unfold server. cbn [method url].
  change (String.eqb "DELETE" "OPTIONS") with false.
  change (String.eqb "DELETE" "POST") with false.
  change (String.eqb "DELETE" "GET") with false.
  change (String.eqb "DELETE" "DELETE") with true.
  rewrite !andb_false_r, H. reflexivity.
Qed.

(** *** Names that leave the storage directory *)

(** C10. The name used by the download and delete handlers is the decoded
    last segment of the URL, joined to the storage directory as it is.
    For the segment [..%2Fserver.js] the joined path is [server.js] next
    to the storage directory, outside it: the download sends that file
    and the delete removes it. *)
Theorem traversal_outside_storage (dirname : list string) (fs : Fs.store)
    (b : Fs.bytes) (frm : parsed) :
  Fs.walk fs [] (dirname ++ ["server.js"]) = inr (Fs.File b) ->
  let outside := dirname ++ ["server.js"] in
  decodeURIComponent (pop (split_slash "/download/..%2Fserver.js")) = Some "../server.js"
  /\ decodeURIComponent (pop (split_slash "/delete/..%2Fserver.js")) = Some "../server.js"
  /\ Path.comps (Path.join (UPLOAD_DIR dirname) "../server.js") = outside
  /\ ~ UPLOAD_DIR dirname `prefix_of` outside
  /\ server dirname fs (mk_request "GET" "/download/..%2Fserver.js" frm)
     = (fs, Responded
              (mk_response 200 (attachment "../server.js") (Data b)))
  /\ server dirname fs (mk_request "DELETE" "/delete/..%2Fserver.js" frm)
     = (delete outside fs,
        Responded (mk_response 200 json_headers
                     (success "File deleted successfully!" []))).
Proof.
  intros Hw outside.
  assert (Hl : Fs.lstat fs (Path.join (UPLOAD_DIR dirname) "../server.js")
               = inr (Fs.File b)).
  { rewrite join_parent. unfold Fs.lstat, Fs.as_directory.
    cbn [Path.comps Path.trailing]. now rewrite Hw. }
  assert (Hs : Fs.stat fs (Path.join (UPLOAD_DIR dirname) "../server.js")
               = inr (Fs.File b)).
  { rewrite join_parent. unfold Fs.stat, Fs.as_directory.
    cbn [Path.comps Path.trailing]. now rewrite Hw. }
  split; [reflexivity|]. split; [reflexivity|].
  split; [now rewrite join_parent|].
  split.
  { unfold UPLOAD_DIR, outside. intros [k Hk].
    rewrite <- app_assoc in Hk. apply app_inv_head in Hk. discriminate. }
  split.
  - rewrite route_download by reflexivity. unfold handle_download. cbn [url].
    change (decodeURIComponent (pop (split_slash "/download/..%2Fserver.js")))
      with (Some "../server.js").
    cbv iota beta. unfold Fs.access, Fs.readFile. rewrite Hs.
    reflexivity.
  - rewrite route_delete by reflexivity. unfold handle_delete. cbn [url].
    change (decodeURIComponent (pop (split_slash "/delete/..%2Fserver.js")))
      with (Some "../server.js").
    cbv iota beta. unfold Fs.unlink. rewrite Hl.
    rewrite join_parent. reflexivity.
Qed.

Lemma traversal_outside_storage_witness :
  Fs.walk Demo.fs_script [] (Demo.dir ++ ["server.js"]) = inr (Fs.File Demo.xyz)
  /\ (server Demo.dir Demo.fs_script (Demo.DELETE "/delete/..%2Fserver.js")).1
     = delete ["srv"; "server.js"] Demo.fs_script.
Proof.
  split; [vm_compute; reflexivity|].
  pose proof (traversal_outside_storage Demo.dir Demo.fs_script Demo.xyz
                (Parsed Undefined)) as H.
  destruct (H ltac:(vm_compute; reflexivity)) as (_ & _ & _ & _ & _ & Hd).
  unfold Demo.DELETE. rewrite Hd. reflexivity.
Defined.

(** *** Listing *)

Lemma child_name_spec (d k : list string) (n : string) :
  Fs.child_name d k = Some n <-> k = d ++ [n].
Proof.
  revert k. induction d as [|x d IH]; intros k; simpl.
  - destruct k as [|y [|z k]]; split; intros H; try discriminate; congruence.
  - destruct k as [|y k]; [split; discriminate|].
    destruct (String.eqb_spec x y) as [->|Hxy].
    + rewrite IH. split; congruence.
    + split; [discriminate|]. intros [= -> _]. congruence.
Qed.

(** The names [readdir] reports are those of the entries stored directly
    under the directory, each once. *)
Lemma readdir_spec (fs : Fs.store) (d : Path.fpath) (names : list string) :
  Fs.readdir fs d = inr names ->
  NoDup names
  /\ forall n, In n names <-> is_Some (fs !! (Path.comps d ++ [n])).
Proof.
  unfold Fs.readdir. destruct (Fs.stat fs d) as [e|[]]; try discriminate.
  intros [= <-]. split.
  - pose proof (NoDup_fst_map_to_list fs) as Hnd. revert Hnd.
    generalize ((map_to_list fs).*1). intros keys Hnd.
    induction Hnd as [|k ks Hk _ IH]; simpl; [constructor|].
    destruct (Fs.child_name (Path.comps d) k) as [n|] eqn:Hn; [|exact IH].
    constructor; [|exact IH].
    intros Hin. apply list_elem_of_omap in Hin as (k' & Hk' & Hn').
    apply child_name_spec in Hn, Hn'. congruence.
  - intros n. rewrite <- list_elem_of_In, list_elem_of_omap. split.
    + intros (k & Hk & Hn). apply child_name_spec in Hn as ->.
      apply list_elem_of_fmap in Hk as ([k v] & -> & Hkv).
      apply elem_of_map_to_list in Hkv. now exists v.
    + intros [v Hv]. exists (Path.comps d ++ [n]). split.
      * apply list_elem_of_fmap. exists (Path.comps d ++ [n], v).
        split; [reflexivity|]. now apply elem_of_map_to_list.
      * now apply child_name_spec.
Qed.

(** Inspecting an entry of a directory that resolves, under a name that
    passes the checks. *)
Lemma stat_child (fs : Fs.store) (d : list string) (n : string) :
  Fs.walk fs [] d = inr Fs.Dir ->
  Path.has_nul n = false -> Path.too_long n = false ->
  Fs.stat fs (Path.mk_fpath (d ++ [n]) false) =
  match fs !! (d ++ [n]) with
  | Some Fs.DanglingLink | None => inl Fs.ENOENT
  | Some x => inr x
  end.
Proof.
  intros Hd Hn Hl. unfold Fs.stat, Fs.as_directory. cbn [Path.comps Path.trailing].
  rewrite walk_snoc, Hd. simpl. rewrite (node_at_good fs d n Hn Hl).
  destruct (fs !! (d ++ [n])) as [[]|]; reflexivity.
Qed.

Lemma lstat_child (fs : Fs.store) (d : list string) (n : string) :
  Fs.walk fs [] d = inr Fs.Dir ->
  Path.has_nul n = false -> Path.too_long n = false ->
  Fs.lstat fs (Path.mk_fpath (d ++ [n]) false) =
  match fs !! (d ++ [n]) with
  | None => inl Fs.ENOENT
  | Some x => inr x
  end.
Proof.
  intros Hd Hn Hl. unfold Fs.lstat, Fs.as_directory. cbn [Path.comps Path.trailing].
  rewrite walk_snoc, Hd. simpl. rewrite (node_at_good fs d n Hn Hl).
  destruct (fs !! (d ++ [n])) as [[]|]; reflexivity.
Qed.

Lemma stat_dir_walk (fs : Fs.store) (d : list string) :
  Fs.stat fs (Path.mk_fpath d false) = inr Fs.Dir -> Fs.walk fs [] d = inr Fs.Dir.
Proof.
  unfold Fs.stat, Fs.as_directory. cbn [Path.comps Path.trailing].
  destruct (Fs.walk fs [] d) as [e|[]]; congruence.
Qed.

(** C7. GET /files returns exactly the names of the entries of the storage
    directory that are regular files, in enumeration order: directories
    and special files are left out, and an entry whose [statSync] throws
    is left out too, the listing still being delivered with status 200. *)
Theorem listing_returns_regular_files (dirname : list string) (fs : Fs.store)
    (names : list string) (frm : parsed) :
  Fs.readdir fs (Path.mk_fpath (UPLOAD_DIR dirname) false) = inr names ->
  Forall (fun n => Path.valid_name n = true) names ->
  let files :=
    List.filter (fun n => Fs.is_regular (fs !! (UPLOAD_DIR dirname ++ [n]))) names in
  server dirname fs (mk_request "GET" "/files" frm)
  = (fs, Responded (mk_response 200 json_headers (listing files)))
  /\ (forall n, In n files <->
                exists b, fs !! (UPLOAD_DIR dirname ++ [n]) = Some (Fs.File b))
  /\ (forall n e, In n names ->
        Fs.statSync_isFile fs (Path.join (UPLOAD_DIR dirname) n) = inl e ->
        ~ In n files).
Proof.
  intros Hrd Hvalid files.
  assert (Hdir : Fs.walk fs [] (UPLOAD_DIR dirname) = inr Fs.Dir).
  { apply stat_dir_walk. unfold Fs.readdir in Hrd.
    destruct (Fs.stat fs _) as [e|[]]; congruence. }
  assert (Hinspect : forall n, In n names ->
            match Fs.statSync_isFile fs (Path.join (UPLOAD_DIR dirname) n) with
            | inr b => b = Fs.is_regular (fs !! (UPLOAD_DIR dirname ++ [n]))
            | inl _ => Fs.is_regular (fs !! (UPLOAD_DIR dirname ++ [n])) = false
            end).
  { intros n Hn. rewrite Forall_forall in Hvalid.
    assert (Hv : Path.valid_name n = true) by (apply Hvalid; now apply list_elem_of_In).
    rewrite (join_valid_name _ _ Hv). destruct (valid_name_good n Hv) as [Hnul Hlen].
    unfold Fs.statSync_isFile. rewrite (stat_child _ _ _ Hdir Hnul Hlen).
    destruct (fs !! (UPLOAD_DIR dirname ++ [n])) as [[]|]; reflexivity. }
  destruct (readdir_spec _ _ _ Hrd) as [_ Hentries]. cbn [Path.comps] in Hentries.
  split; [|split].
  - assert (Hf : List.filter
                    (fun file =>
                       match Fs.statSync_isFile fs
                               (Path.join (UPLOAD_DIR dirname) file) with
                       | inr b => b
                       | inl _ => false
                       end) names = files).
    { apply filter_ext_in. intros n Hn. specialize (Hinspect n Hn).
      destruct (Fs.statSync_isFile fs _); congruence. }
    rewrite route_files. unfold handle_files. rewrite Hrd. cbv zeta.
    rewrite writeHead_end_json, Hf. reflexivity.
  - intros n. unfold files. rewrite filter_In, Hentries. split.
    + intros [_ Hreg]. destruct (fs !! _) as [[]|]; try discriminate. eauto.
    + intros [b ->]. split; [eauto|reflexivity].
  - intros n e Hn He Hin. specialize (Hinspect n Hn). rewrite He in Hinspect.
    unfold files in Hin. apply filter_In in Hin as [_ Hreg]. congruence.
Qed.

Lemma listing_returns_regular_files_witness :
  Fs.readdir Demo.fs_mixed (Path.mk_fpath (UPLOAD_DIR Demo.dir) false)
  = inr ["tty"; "hello.txt"; "lost"; "photos"]
  /\ server Demo.dir Demo.fs_mixed (Demo.GET "/files")
     = (Demo.fs_mixed,
        Responded (mk_response 200 json_headers (listing ["hello.txt"]))).
Proof.
  assert (Hrd : Fs.readdir Demo.fs_mixed (Path.mk_fpath (UPLOAD_DIR Demo.dir) false)
                = inr ["tty"; "hello.txt"; "lost"; "photos"])
    by (vm_compute; reflexivity).
  split; [exact Hrd|].
  destruct (listing_returns_regular_files Demo.dir Demo.fs_mixed _
              (Parsed Undefined) Hrd) as [H _].
  - repeat constructor.
  - unfold Demo.GET. rewrite H. vm_compute. reflexivity.
Defined.

(** *** Static files *)

Lemma route_static dirname fs req :
  other_route req = false -> server dirname fs req = handle_static dirname fs req.
Proof.
  unfold other_route, server. intros H.
  repeat (apply orb_false_iff in H as [H ?]).
  repeat match goal with Hc : _ = false |- _ => rewrite Hc; clear Hc end.
  reflexivity.
Qed.

Lemma mime_value_ok (ext : string) :
  header_value_ok (default "application/octet-stream" (getHeader ext mimeTypes)) = true.
Proof.
  unfold mimeTypes. cbn [getHeader].
  repeat (destruct (String.eqb _ ext); [reflexivity|]). reflexivity.
Qed.

(** C8 (as the code has it). Every request that no earlier route takes,
    whatever its method, is answered from the public directory: the path
    is the request path joined to that directory, [/] standing for
    [/client.html]; a readable file is answered with status 200 and the
    content type its lower-cased extension has in the MIME table,
    [application/octet-stream] when it has none; a file that is not found
    gives 404 with an HTML body, any other error of the read 500.  The
    body goes on the wire unless the method is HEAD. *)
Theorem static_fallback (dirname : list string) (fs : Fs.store) (req : request) :
  other_route req = false ->
  let requestedPath := if String.eqb (url req) "/" then "/client.html" else url req in
  let filePath := Path.join (PUBLIC_DIR dirname) requestedPath in
  let ext := toLowerCase (Path.extname filePath) in
  (url req = "/" -> Path.comps filePath = PUBLIC_DIR dirname ++ ["client.html"])
  /\ (forall bs, Fs.readFile fs filePath = inr bs ->
        exists ty,
          server dirname fs req
          = (fs, Responded (mk_response 200 (with_cors [("Content-Type", ty)])
                              (if String.eqb (method req) "HEAD" then NoBody
                               else Data bs)))
          /\ (forall t, getHeader ext mimeTypes = Some t -> ty = t)
          /\ (getHeader ext mimeTypes = None -> ty = "application/octet-stream"))
  /\ (Fs.readFile fs filePath = inl Fs.ENOENT ->
        server dirname fs req
        = (fs, Responded
                 (mk_response 404 (with_cors [("Content-Type", "text/html")])
                    (if String.eqb (method req) "HEAD" then NoBody
                     else Text "<h1>404 Not Found</h1><p>The requested file could not be found.</p>"))))
  /\ (forall e, Fs.readFile fs filePath = inl e ->
        e <> Fs.ENOENT -> e <> Fs.ERR_INVALID_ARG_VALUE ->
        server dirname fs req
        = (fs, Responded
                 (mk_response 500 cors
                    (if String.eqb (method req) "HEAD" then NoBody
                     else Text ("<h1>500 Internal Server Error: " ++ Fs.code e
                                ++ "</h1>")%string)))).
Proof.
  intros Hroute requestedPath filePath ext.
  rewrite (route_static _ _ _ Hroute). unfold handle_static.
  fold requestedPath. fold filePath. fold ext.
  split; [|split; [|split]].
  - intros Hu. unfold filePath, requestedPath. rewrite Hu. reflexivity.
  - intros bs ->.
    exists (default "application/octet-stream" (getHeader ext mimeTypes)).
    split; [|split].
    + unfold writeHead_end. cbn [forallb snd]. rewrite mime_value_ok. reflexivity.
    + intros t ->. reflexivity.
    + intros ->. reflexivity.
  - intros ->. reflexivity.
  - intros e -> He He'. destruct e; try congruence; reflexivity.
Qed.

Lemma static_fallback_witness :
  other_route (mk_request "POST" "/" (Parsed Undefined)) = false
  /\ exists ty,
       server Demo.dir Demo.fs_page (mk_request "POST" "/" (Parsed Undefined))
       = (Demo.fs_page,
          Responded (mk_response 200 (with_cors [("Content-Type", ty)])
                       (Data Demo.page))).
Proof.
  split; [reflexivity|].
  destruct (static_fallback Demo.dir Demo.fs_page
              (mk_request "POST" "/" (Parsed Undefined)) eq_refl)
    as (_ & H & _).
  destruct (H Demo.page ltac:(vm_compute; reflexivity)) as (ty & Hty & _).
  exists ty. exact Hty.
Defined.

(** C8 (as the spec words it) fails: a POST that matches no route is
    served the client page, although its method is not GET. *)
Lemma static_served_to_post :
  method (mk_request "POST" "/" (Parsed Undefined)) <> "GET"
  /\ server Demo.dir Demo.fs_page (mk_request "POST" "/" (Parsed Undefined))
     = (Demo.fs_page,
        Responded (mk_response 200 (with_cors [("Content-Type", "text/html")])
                     (Data Demo.page))).
Proof. split; [discriminate | vm_compute; reflexivity]. Qed.

(** *** Delete *)

(** The answers of the delete handler. *)
Lemma delete_cases dirname fs u name frm :
  startsWith "/delete/" u = true ->
  decodeURIComponent (pop (split_slash u)) = Some name ->
  let p := Path.join (UPLOAD_DIR dirname) name in
  server dirname fs (mk_request "DELETE" u frm) =
  match Fs.unlink fs p with
  | inl Fs.ERR_INVALID_ARG_VALUE => (fs, Threw ERR_INVALID_ARG_VALUE)
  | inl Fs.ENOENT =>
      (fs, Responded (mk_response 404 json_headers (failure "File not found.")))
  | inl e =>
      (fs, Responded
             (mk_response 500 json_headers
                (failure ("Failed to delete file: " ++ Fs.message e "unlink" p)%string)))
  | inr fs' =>
      (fs', Responded (mk_response 200 json_headers
                         (success "File deleted successfully!" [])))
  end.
Proof.
  intros Hu Hd p. rewrite (route_delete _ _ _ _ Hu). unfold handle_delete.
  cbn [url]. rewrite Hd. fold p.
  destruct (Fs.unlink fs p) as [[]|fs']; rewrite ?writeHead_end_json; reflexivity.
Qed.

(** A path whose last component holds a NUL byte is refused, unless the
    disk had a directory there. *)
Lemma walk_nul_name (fs : Fs.store) (q : list string) (c : string) :
  Path.has_nul c = true -> fs !! (q ++ [c]) <> Some Fs.Dir ->
  Fs.walk fs [] (q ++ [c]) = inl Fs.ERR_INVALID_ARG_VALUE.
Proof.
  intros Hc Hno. rewrite walk_snoc.
  assert (Hb : forall e, Fs.blocked [c] e = Fs.ERR_INVALID_ARG_VALUE).
  { intros e. unfold Fs.blocked. simpl. now rewrite Hc. }
  destruct (Fs.walk fs [] q) as [e|[]]; rewrite ?Hb; try reflexivity.
  simpl. unfold Fs.node_at.
  destruct (q ++ [c]) eqn:E; [destruct q; discriminate|]. rewrite <- E.
  rewrite last_last. unfold Fs.missing. rewrite Hc.
  destruct (fs !! (q ++ [c])) as [[]|] eqn:El; try reflexivity. congruence.
Qed.

(** C5 (evaluation at the failing input). DELETE /delete/%00: the last
    segment decodes to the name of one NUL byte; [fs.unlink] throws on a
    path with that byte instead of reporting an error to its callback,
    nothing catches the exception, and no response is written: neither
    the 404 nor the 500 that the taxonomy promises.  The disk is
    untouched. *)
Theorem delete_nul_name_leaves_listener (dirname : list string) (fs : Fs.store)
    (frm : parsed) :
  fs !! (UPLOAD_DIR dirname ++ [nul]) = None ->
  decodeURIComponent (pop (split_slash "/delete/%00")) = Some nul
  /\ server dirname fs (mk_request "DELETE" "/delete/%00" frm)
     = (fs, Threw ERR_INVALID_ARG_VALUE).
Proof.
  intros Hnone. split; [reflexivity|].
  rewrite (delete_cases dirname fs "/delete/%00" nul frm eq_refl eq_refl).
  assert (Hj : Path.join (UPLOAD_DIR dirname) nul
               = Path.mk_fpath (UPLOAD_DIR dirname ++ [nul]) false)
    by (apply join_one_component; (discriminate || reflexivity)).
  rewrite Hj. unfold Fs.unlink, Fs.lstat. cbn [Path.comps].
  rewrite walk_nul_name; [reflexivity | reflexivity | congruence].
Qed.

Lemma delete_nul_name_leaves_listener_witness :
  Demo.fs_hello !! (UPLOAD_DIR Demo.dir ++ [nul]) = None
  /\ server Demo.dir Demo.fs_hello (Demo.DELETE "/delete/%00")
     = (Demo.fs_hello, Threw ERR_INVALID_ARG_VALUE).
Proof.
  assert (H : Demo.fs_hello !! (UPLOAD_DIR Demo.dir ++ [nul]) = None)
    by (vm_compute; reflexivity).
  split; [exact H|].
  exact (proj2 (delete_nul_name_leaves_listener Demo.dir Demo.fs_hello
                  (Parsed Undefined) H)).
Defined.

(** *** Download *)

(** A closing double quote does not change the legality of a value. *)
Lemma header_value_ok_quote (a : string) :
  header_value_ok (a ++ dquote)%string = header_value_ok a.
Proof.
  revert a. fix IH 1. intros [|c a]; simpl.
  - reflexivity.
  - destruct (N_of_ascii c <? 128)%N.
    + now rewrite IH.
    + destruct (in_range 194 195 (N_of_ascii c)); [|reflexivity].
      destruct a as [|c2 a]; simpl; [reflexivity|]. now rewrite IH.
Qed.

Lemma disposition_ok (name : string) :
  header_value_ok ("attachment; filename=" ++ dquote ++ name ++ dquote)%string
  = header_value_ok name.
Proof. simpl. apply header_value_ok_quote. Qed.

(** The answers of the download handler. *)
Lemma download_cases dirname fs u name frm :
  startsWith "/download/" u = true ->
  decodeURIComponent (pop (split_slash u)) = Some name ->
  let p := Path.join (UPLOAD_DIR dirname) name in
  server dirname fs (mk_request "GET" u frm) =
  (fs,
   match Fs.access fs p with
   | Some Fs.ERR_INVALID_ARG_VALUE => Threw ERR_INVALID_ARG_VALUE
   | Some _ =>
       Responded (mk_response 404 (with_cors [("Content-Type", "text/plain")])
                    (Text "File not found."))
   | None =>
       if header_value_ok name
       then Responded
              (mk_response 200 (attachment name)
                 (match Fs.readFile fs p with
                  | inr b => Data b
                  | inl _ => Text "Error downloading file."
                  end))
       else Threw ERR_INVALID_CHAR
   end).
Proof.
  intros Hu Hd p. rewrite (route_download _ _ _ _ Hu). unfold handle_download.
  cbn [url]. rewrite Hd. fold p.
  destruct (Fs.access fs p) as [[]|]; try reflexivity.
  unfold writeHead_end. cbn [forallb snd]. rewrite disposition_ok.
  change (header_value_ok "application/octet-stream") with true.
  cbn [andb]. rewrite andb_true_r. destruct (header_value_ok name); reflexivity.
Qed.





(** *** Moving a staged file into place *)

Lemma node_at_insert_ne (fs : Fs.store) (k a : list string) (x : Fs.node) :
  a <> k -> Fs.node_at (<[k := x]> fs) a = Fs.node_at fs a.
Proof.
  intros Hne. unfold Fs.node_at. destruct a; [reflexivity|].
  now rewrite lookup_insert_ne by congruence.
Qed.

Lemma node_at_delete_ne (fs : Fs.store) (k a : list string) :
  a <> k -> Fs.node_at (delete k fs) a = Fs.node_at fs a.
Proof.
  intros Hne. unfold Fs.node_at. destruct a; [reflexivity|].
  now rewrite lookup_delete_ne by congruence.
Qed.

(** A resolved path and its proper prefixes are entries of the store (or
    the root): a key without entry is none of them. *)
Lemma walk_prefix_present (fs : Fs.store) (q a b : list string) (n : Fs.node) :
  Fs.walk fs [] q = inr n -> q = a ++ b -> a <> [] -> is_Some (fs !! a).
Proof.
  intros Hw Hq Ha. destruct b as [|c b].
  - rewrite app_nil_r in Hq. subst a.
    exists n. apply (walk_lookup fs [] q n Hw). exact Ha.
  - pose proof (walk_above fs [] q n Hw a (c :: b) Hq ltac:(discriminate)) as Hd.
    simpl in Hd. exists Fs.Dir. now apply node_at_lookup.
Qed.

(** Staging a file under a fresh key does not disturb resolved paths. *)
Lemma walk_insert_fresh (fs : Fs.store) (k q : list string) (x n : Fs.node) :
  fs !! k = None -> Fs.walk fs [] q = inr n ->
  Fs.walk (<[k := x]> fs) [] q = inr n.
Proof.
  intros Hk Hw. rewrite <- Hw. apply walk_agree. intros a b Hq. simpl.
  destruct a as [|c a]; [reflexivity|].
  apply node_at_insert_ne. intros <-.
  destruct (walk_prefix_present fs q (c :: a) b n Hw Hq ltac:(discriminate)).
  congruence.
Qed.

(** Changing the entry at a path leaves the resolution of shorter paths
    alone. *)
Lemma walk_insert_longer (fs : Fs.store) (parent : list string) (c : string)
    (x : Fs.node) :
  Fs.walk (<[parent ++ [c] := x]> fs) [] parent = Fs.walk fs [] parent.
Proof.
  apply walk_agree. intros a b Hq. simpl.
  apply node_at_insert_ne. intros E. apply (f_equal length) in E.
  subst parent. rewrite !length_app in E. simpl in E. lia.
Qed.

Lemma walk_delete_longer (fs : Fs.store) (parent : list string) (c : string) :
  Fs.walk (delete (parent ++ [c]) fs) [] parent = Fs.walk fs [] parent.
Proof.
  apply walk_agree. intros a b Hq. simpl.
  apply node_at_delete_ne. intros E. apply (f_equal length) in E.
  subst parent. rewrite !length_app in E. simpl in E. lia.
Qed.

(** After the move, the target resolves to the moved entry. *)
Lemma walk_moved (fs : Fs.store) (old parent : list string) (c : string)
    (n : Fs.node) :
  Fs.walk fs [] parent = inr Fs.Dir -> fs !! old = Some n -> n <> Fs.Dir ->
  Path.has_nul c = false -> Path.too_long c = false ->
  Fs.walk (<[parent ++ [c] := n]> (delete old fs)) [] (parent ++ [c]) = inr n.
Proof.
  intros Hp Hold Hn Hnul Hlen. rewrite walk_snoc.
  assert (Hsame : Fs.walk (<[parent ++ [c] := n]> (delete old fs)) [] parent
                  = Fs.walk fs [] parent).
  { rewrite walk_insert_longer. apply walk_agree. intros a b Hq. simpl.
    destruct a as [|x a]; [reflexivity|].
    apply node_at_delete_ne. intros <-.
    destruct (walk_prefix_present fs parent (x :: a) b Fs.Dir Hp Hq
                ltac:(discriminate)) as [m Hm].
    assert (Hdir : Fs.node_at fs (x :: a) = inr Fs.Dir).
    { destruct b as [|y b].
      - rewrite app_nil_r in Hq. subst parent.
        apply node_at_dir. apply (walk_lookup fs [] (x :: a) Fs.Dir Hp). discriminate.
      - exact (walk_above fs [] parent Fs.Dir Hp (x :: a) (y :: b) Hq
                 ltac:(discriminate)). }
    apply node_at_lookup in Hdir; [|discriminate]. congruence. }
  rewrite Hsame, Hp. simpl. rewrite (node_at_good _ parent c Hnul Hlen).
  now rewrite lookup_insert_eq.
Qed.

Lemma lstat_walk (fs : Fs.store) (p : Path.fpath) (n : Fs.node) :
  Fs.lstat fs p = inr n -> Fs.walk fs [] (Path.comps p) = inr n.
Proof.
  unfold Fs.lstat, Fs.as_directory.
  destruct (Fs.walk fs [] (Path.comps p)) as [e|m]; [discriminate|].
  destruct (Path.trailing p); [|congruence]. destruct m; congruence.
Qed.

(** What [lstat] finds and is no symbolic link, [stat] finds. *)
Lemma lstat_stat (fs : Fs.store) (p : Path.fpath) (n : Fs.node) :
  Fs.lstat fs p = inr n -> n <> Fs.DanglingLink -> Fs.stat fs p = inr n.
Proof.
  unfold Fs.lstat, Fs.stat.
  destruct (Fs.walk fs [] (Path.comps p)) as [e|m]; [discriminate|].
  intros H Hn. destruct m; try exact H.
  unfold Fs.as_directory in H. destruct (Path.trailing p); congruence.
Qed.

Lemma node_at_enoent (fs : Fs.store) (q : list string) (c : string) :
  Fs.node_at fs (q ++ [c]) = inl Fs.ENOENT ->
  Path.has_nul c = false /\ Path.too_long c = false.
Proof.
  unfold Fs.node_at. destruct (q ++ [c]) eqn:E; [destruct q; discriminate|].
  rewrite <- E. cbv zeta. rewrite last_last. unfold Fs.missing.
  destruct (Path.has_nul c), (Path.too_long c);
    destruct (fs !! (q ++ [c])) as [[]|]; simpl; intros H;
    first [discriminate H | auto].
Qed.

(** The target of a successful move has a parent that is a directory and
    a last component that passes the checks. *)
Lemma target_parent (fs : Fs.store) (q : list string) :
  (exists m, Fs.walk fs [] q = inr m /\ m <> Fs.Dir)
  \/ (Fs.walk fs [] q = inl Fs.ENOENT
      /\ Fs.walk fs [] (removelast q) = inr Fs.Dir) ->
  exists parent c, q = parent ++ [c] /\ Fs.walk fs [] parent = inr Fs.Dir
                   /\ Path.has_nul c = false /\ Path.too_long c = false.
Proof.
  intros H. destruct q as [|x q] using rev_ind.
  - simpl in H. destruct H as [(m & [= <-] & Hm)|[[=] _]]. congruence.
  - clear IHq. exists q, x. split; [reflexivity|].
    destruct H as [(m & Hw & Hm)|[Hw Hp]].
    + split; [|exact (walk_found_good fs q x m Hw Hm)].
      rewrite walk_snoc in Hw.
      destruct (Fs.walk fs [] q) as [e|[]]; try discriminate. reflexivity.
    + rewrite removelast_last in Hp. split; [exact Hp|].
      rewrite walk_snoc, Hp in Hw. simpl in Hw.
      apply (node_at_enoent fs q x). congruence.
Qed.

(** What a successful [rename] of a file does. *)
Lemma rename_success (fs fs2 : Fs.store) (old new : Path.fpath) :
  Fs.rename fs old new = inr fs2 -> Path.comps old <> [] ->
  exists n,
    fs !! Path.comps old = Some n /\ n <> Fs.Dir
    /\ fs2 = <[Path.comps new := n]> (delete (Path.comps old) fs)
    /\ Fs.lstat fs2 new = inr n.
Proof.
  unfold Fs.rename. cbv zeta. intros H Hold.
  destruct (Fs.refused (Fs.lstat fs old) || Fs.refused _); [discriminate|].
  destruct (Fs.lstat fs old) as [e|n] eqn:Hl; [discriminate|].
  apply lstat_walk in Hl. apply walk_lookup in Hl; [|exact Hold]. simpl in Hl.
  assert (Hn : n <> Fs.Dir) by (intros ->; discriminate).
  assert (Hbody :
    match Fs.walk fs [] (Path.comps new) with
    | inr Fs.Dir => inl Fs.EISDIR
    | inr _ => if Path.trailing new then inl Fs.ENOTDIR
               else inr (<[Path.comps new := n]> (delete (Path.comps old) fs))
    | inl Fs.ENOENT =>
        match Fs.walk fs [] (removelast (Path.comps new)) with
        | inr Fs.Dir => if Path.trailing new then inl Fs.ENOTDIR
                        else inr (<[Path.comps new := n]> (delete (Path.comps old) fs))
        | _ => inl Fs.ENOENT
        end
    | inl e => inl e
    end = inr fs2).
  { destruct n; try congruence;
      (destruct (Fs.walk fs [] (Path.comps new)) as [e|[]]; try exact H;
       destruct (Path.comps new); [discriminate H|];
       destruct (Path.is_prefix _ _); discriminate H). }
  clear H.
  assert (Hshape : Path.trailing new = false
                   /\ fs2 = <[Path.comps new := n]> (delete (Path.comps old) fs)
                   /\ exists parent c, Path.comps new = parent ++ [c]
                                       /\ Fs.walk fs [] parent = inr Fs.Dir
                                       /\ Path.has_nul c = false
                                       /\ Path.too_long c = false).
  { destruct (Fs.walk fs [] (Path.comps new)) as [e|m] eqn:Hw.
    - destruct e; try discriminate.
      destruct (Fs.walk fs [] (removelast (Path.comps new))) as [e|[]] eqn:Hp;
        try discriminate.
      destruct (Path.trailing new); [discriminate|].
      injection Hbody as <-. repeat split.
      apply (target_parent fs). right. now split.
    - assert (Hm : m <> Fs.Dir) by (intros ->; discriminate).
      assert (Hbody' : (if Path.trailing new then inl Fs.ENOTDIR
                        else inr (<[Path.comps new := n]> (delete (Path.comps old) fs)))
                       = (inr fs2 : Fs.errno + Fs.store))
        by (destruct m; congruence).
      destruct (Path.trailing new); [discriminate|].
      injection Hbody' as <-. repeat split.
      apply (target_parent fs). left. exists m. now split. }
  destruct Hshape as (Ht & -> & parent & c & Hq & Hp & Hnul & Hlen).
  exists n. repeat split; auto.
  unfold Fs.lstat, Fs.as_directory. rewrite Ht, Hq.
  now rewrite (walk_moved fs _ parent c n Hp Hl Hn Hnul Hlen).
Qed.

(** *** Staging *)

Lemma upload_dir_not_root dirname (x : string) : UPLOAD_DIR dirname ++ [x] <> [].
Proof. unfold UPLOAD_DIR. destruct dirname; discriminate. Qed.

Lemma filepath_not_root dirname f : Path.comps (filepath dirname f) <> [].
Proof. apply upload_dir_not_root. Qed.

(** The staged copy resolves once the upload directory does. *)
Lemma lstat_staged dirname fs tmp N B :
  Fs.walk fs [] (UPLOAD_DIR dirname) = inr Fs.Dir ->
  fs !! (UPLOAD_DIR dirname ++ [tmp]) = None ->
  Path.valid_name tmp = true ->
  Fs.lstat (stage dirname fs (mk_upload tmp N B)) (filepath dirname (mk_upload tmp N B))
  = inr (Fs.File B).
Proof.
  intros Hdir Hfresh Htmp. destruct (valid_name_good tmp Htmp) as [Hnul Hlen].
  unfold stage, filepath. cbn [newFilename data Path.comps].
  rewrite (lstat_child _ _ _ (walk_insert_fresh fs _ _ _ _ Hfresh Hdir) Hnul Hlen).
  now rewrite lookup_insert_eq.
Qed.


(** *** An upload under a name with a NUL byte *)

(** C4 (evaluation at the failing input). An upload whose file name holds
    a NUL byte (and no separator): the form is parsed and the file
    staged, then [fs.rename] throws on the target path inside the
    callback of [form.parse] instead of handing an error to its own
    callback.  Nothing catches the exception: the move has failed and no
    response is written, neither the 500 that the taxonomy promises for a
    failed move nor any other, and the staged copy stays on the disk. *)
Theorem upload_nul_name_leaves_listener (dirname : list string) (fs : Fs.store)
    (tmp N : string) (B : Fs.bytes) :
  Path.has_nul N = true ->
  has_slash N = false ->
  fs !! (UPLOAD_DIR dirname ++ [N]) = None ->
  server dirname fs (mk_request "POST" "/upload" (Parsed (One (mk_upload tmp N B))))
  = (<[UPLOAD_DIR dirname ++ [tmp] := Fs.File B]> fs, Threw ERR_INVALID_ARG_VALUE).
Proof.
  intros Hnul Hs Hnone.
  assert (Hj : Path.join (UPLOAD_DIR dirname) N
               = Path.mk_fpath (UPLOAD_DIR dirname ++ [N]) false).
  { apply join_one_component; [intros ->; discriminate Hnul ..|exact Hs]. }
  rewrite upload_cases.
  cbn [after_parse myFile_of uploadedFile staged originalFilename]. cbv zeta.
  rewrite Hj.
  assert (Hr : Fs.rename (stage dirname fs (mk_upload tmp N B))
                 (filepath dirname (mk_upload tmp N B))
                 (Path.mk_fpath (UPLOAD_DIR dirname ++ [N]) false)
               = inl Fs.ERR_INVALID_ARG_VALUE).
  { unfold Fs.rename. cbv zeta. cbn [Path.comps].
    rewrite (walk_nul_name _ _ N Hnul); [now rewrite orb_true_r|].
    unfold stage. cbn [filepath newFilename data Path.comps].
    destruct (decide (UPLOAD_DIR dirname ++ [tmp] = UPLOAD_DIR dirname ++ [N]))
      as [->|Hne].
    - rewrite lookup_insert_eq. discriminate.
    - rewrite lookup_insert_ne by exact Hne. rewrite Hnone. discriminate. }
  rewrite Hr. reflexivity.
Qed.

Lemma upload_nul_name_leaves_listener_witness :
  Path.has_nul Demo.nul_name = true
  /\ server Demo.dir Demo.fs0
       (Demo.POST_upload (mk_upload "f3a9" Demo.nul_name Demo.abc))
     = (<[["srv"; "uploads"; "f3a9"] := Fs.File Demo.abc]> Demo.fs0,
        Threw ERR_INVALID_ARG_VALUE).
Proof.
  split; [reflexivity|].
  apply (upload_nul_name_leaves_listener Demo.dir Demo.fs0 "f3a9" Demo.nul_name
           Demo.abc).
  - reflexivity.
  - reflexivity.
  - vm_compute. reflexivity.
Defined.

(** *** Upload, then download *)

(** A regular file under the decoded name is sent as it is. *)
Lemma download_of_file dirname fs u name frm b :
  startsWith "/download/" u = true ->
  decodeURIComponent (pop (split_slash u)) = Some name ->
  header_value_ok name = true ->
  Fs.lstat fs (Path.join (UPLOAD_DIR dirname) name) = inr (Fs.File b) ->
  server dirname fs (mk_request "GET" u frm)
  = (fs, Responded (mk_response 200 (attachment name) (Data b))).
Proof.
  intros Hu Hd Hok Hl. rewrite (download_cases dirname fs u name frm Hu Hd).
  unfold Fs.access, Fs.readFile.
  now rewrite (lstat_stat _ _ _ Hl ltac:(discriminate)), Hok.
Qed.

(** An upload answered 200 has put the bytes under the joined name. *)
Lemma upload_stored dirname fs tmp N B :
  let up := mk_request "POST" "/upload" (Parsed (One (mk_upload tmp N B))) in
  status_of (server dirname fs up).2 = Some 200 ->
  Fs.lstat (server dirname fs up).1 (Path.join (UPLOAD_DIR dirname) N)
  = inr (Fs.File B).
Proof.
  intros up. unfold up. rewrite upload_cases.
  cbn [after_parse myFile_of uploadedFile staged originalFilename].
  cbv zeta.
  destruct (Fs.rename _ _ _) as [e|fs2] eqn:Hr;
    [destruct e; cbn [fst snd status_of status]; discriminate|].
  cbn [fst snd status_of status]. intros _.
  apply rename_success in Hr as (n & Hn & _ & _ & Hl);
    [|apply filepath_not_root].
  unfold stage in Hn. rewrite lookup_insert_eq in Hn. cbn [data] in Hn.
  congruence.
Qed.

(** C1 (as the code has it). If the upload of bytes [B] under name [N] is
    answered 200 and [N] is a legal header value, then a following GET
    /download/E, for any last segment [E] that percent-decodes to [N], is
    answered 200 with exactly [B] as body. *)
Theorem upload_download_roundtrip (dirname : list string) (fs : Fs.store)
    (tmp N : string) (B : Fs.bytes) (u : string) (frm : parsed) :
  let up := mk_request "POST" "/upload" (Parsed (One (mk_upload tmp N B))) in
  let fs' := (server dirname fs up).1 in
  status_of (server dirname fs up).2 = Some 200 ->
  startsWith "/download/" u = true ->
  decodeURIComponent (pop (split_slash u)) = Some N ->
  header_value_ok N = true ->
  server dirname fs' (mk_request "GET" u frm)
  = (fs', Responded (mk_response 200 (attachment N) (Data B))).
Proof.
  intros up fs' Hup Hu Hd Hok.
  apply download_of_file; auto. now apply upload_stored.
Qed.

Lemma upload_download_roundtrip_witness :
  status_of (server Demo.dir Demo.fs0
               (mk_request "POST" "/upload"
                  (Parsed (One (mk_upload "f3a9" "a b.bin" Demo.xyz))))).2 = Some 200
  /\ decodeURIComponent (pop (split_slash "/download/a%20b.bin")) = Some "a b.bin"
  /\ (server Demo.dir
        (server Demo.dir Demo.fs0
           (mk_request "POST" "/upload"
              (Parsed (One (mk_upload "f3a9" "a b.bin" Demo.xyz))))).1
        (mk_request "GET" "/download/a%20b.bin" (Parsed Undefined))).2
     = Responded (mk_response 200 (attachment "a b.bin") (Data Demo.xyz)).
Proof.
  split; [vm_compute; reflexivity|]. split; [reflexivity|].
  rewrite (upload_download_roundtrip Demo.dir Demo.fs0 "f3a9" "a b.bin" Demo.xyz
             "/download/a%20b.bin" (Parsed Undefined));
    [reflexivity| vm_compute; reflexivity | reflexivity | reflexivity | reflexivity].
Defined.

(** C1 (as the spec words it) fails for a name with a separator: the
    upload of [a/b] is answered 500, because [uploads/a] does not exist,
    and the download, by the encoded or by the plain name, 404. *)
Lemma roundtrip_fails_for_nested_name :
  let up := Demo.POST_upload (mk_upload "f3a9" "a/b" Demo.abc) in
  let fs' := (server Demo.dir Demo.fs0 up).1 in
  status_of (server Demo.dir Demo.fs0 up).2 = Some 500
  /\ decodeURIComponent (pop (split_slash "/download/a%2Fb")) = Some "a/b"
  /\ status_of (server Demo.dir fs' (Demo.GET "/download/a%2Fb")).2 = Some 404
  /\ status_of (server Demo.dir fs' (Demo.GET "/download/a/b")).2 = Some 404.
Proof. repeat split; vm_compute; reflexivity. Qed.

(** *** One file per name *)

Lemma stat_file_lstat (fs : Fs.store) (p : Path.fpath) (b : Fs.bytes) :
  Fs.stat fs p = inr (Fs.File b) ->
  Fs.lstat fs p = inr (Fs.File b) /\ Path.trailing p = false.
Proof.
  unfold Fs.stat, Fs.lstat, Fs.as_directory.
  destruct (Fs.walk fs [] (Path.comps p)) as [e|[]]; try discriminate;
    destruct (Path.trailing p); try discriminate; auto.
Qed.

(** Uploading under a name that is stored replaces that one entry. *)
Lemma upload_over_existing dirname fs tmp N B old :
  Fs.walk fs [] (UPLOAD_DIR dirname) = inr Fs.Dir ->
  fs !! (UPLOAD_DIR dirname ++ [tmp]) = None ->
  Path.valid_name tmp = true ->
  Fs.stat fs (Path.join (UPLOAD_DIR dirname) N) = inr (Fs.File old) ->
  let p := Path.join (UPLOAD_DIR dirname) N in
  Fs.rename (stage dirname fs (mk_upload tmp N B))
    (filepath dirname (mk_upload tmp N B)) p
  = inr (<[Path.comps p := Fs.File B]> fs).
Proof.
  intros Hdir Hfresh Htmp Hst p. apply stat_file_lstat in Hst as [Hl Ht].
  apply lstat_walk in Hl. fold p in Hl, Ht.
  unfold Fs.rename. cbv zeta.
  rewrite (lstat_staged dirname fs tmp N B Hdir Hfresh Htmp).
  unfold stage, filepath. cbn [newFilename data Path.comps].
  rewrite (walk_insert_fresh fs _ _ _ _ Hfresh Hl), Ht.
  cbn [Fs.refused orb]. now rewrite delete_insert_id.
Qed.

(** The answer to an upload under a name that is stored, and what a
    download of the name gets afterwards when the name is a legal header
    value: the new bytes. *)
Lemma overwrite_replaces_entry (dirname : list string) (fs : Fs.store)
    (tmp N : string) (B old : Fs.bytes) :
  Fs.walk fs [] (UPLOAD_DIR dirname) = inr Fs.Dir ->
  fs !! (UPLOAD_DIR dirname ++ [tmp]) = None ->
  Path.valid_name tmp = true ->
  Fs.stat fs (Path.join (UPLOAD_DIR dirname) N) = inr (Fs.File old) ->
  let up := mk_request "POST" "/upload" (Parsed (One (mk_upload tmp N B))) in
  let p := Path.join (UPLOAD_DIR dirname) N in
  let fs' := <[Path.comps p := Fs.File B]> fs in
  server dirname fs up
  = (fs', Responded (mk_response 200 json_headers
                       (success "File uploaded successfully!"
                          [("fileName", JString N)])))
  /\ Fs.stat fs' p = inr (Fs.File B)
  /\ (forall n, is_Some (fs' !! (UPLOAD_DIR dirname ++ [n]))
                <-> is_Some (fs !! (UPLOAD_DIR dirname ++ [n])))
  /\ (forall u frm,
        startsWith "/download/" u = true ->
        decodeURIComponent (pop (split_slash u)) = Some N ->
        header_value_ok N = true ->
        server dirname fs' (mk_request "GET" u frm)
        = (fs', Responded (mk_response 200 (attachment N) (Data B)))).
Proof.
  intros Hdir Hfresh Htmp Hst up p fs'.
  pose proof (upload_over_existing dirname fs tmp N B old Hdir Hfresh Htmp Hst) as Hr.
  cbv zeta in Hr. fold p in Hr. fold fs' in Hr.
  assert (Hl' : Fs.lstat fs' p = inr (Fs.File B)).
  { pose proof Hr as Hr'.
    apply rename_success in Hr' as (n & Hn & _ & _ & Hl); [|apply filepath_not_root].
    unfold stage in Hn. rewrite lookup_insert_eq in Hn. cbn [data] in Hn.
    injection Hn as <-. exact Hl. }
  split; [|split; [|split]].
  - unfold up. rewrite upload_cases.
    cbn [after_parse myFile_of uploadedFile staged originalFilename].
    cbv zeta. fold p. now rewrite Hr.
  - apply lstat_stat; [exact Hl' | discriminate].
  - intros n. unfold fs'. rewrite lookup_insert_is_Some. split.
    + intros [<-|[_ H]]; [|exact H].
      apply stat_file_lstat in Hst as [Hl _]. apply lstat_walk in Hl.
      fold p in Hl. destruct (Path.comps p) eqn:E; [discriminate|].
      rewrite <- E in *. exists (Fs.File old).
      apply (walk_lookup fs [] (Path.comps p) _ Hl). rewrite E. discriminate.
    + intros H. destruct (decide (Path.comps p = UPLOAD_DIR dirname ++ [n])); auto.
  - intros u frm Hu Hd Hok. now apply download_of_file.
Qed.

(** C2 (evaluation at the failing input). Uploading under a name that is
    stored is answered 200 and replaces the content of that one entry
    (no second entry, no renamed copy); but when the name is not a legal
    header value, such as a name with a character above U+00FF, the
    download that follows does not return the new bytes: [res.writeHead]
    throws on the [Content-Disposition] header, nothing catches it, and
    no response is written. *)
Theorem overwrite_then_download_throws (dirname : list string) (fs : Fs.store)
    (tmp N : string) (B old : Fs.bytes) (u : string) (frm : parsed) :
  Fs.walk fs [] (UPLOAD_DIR dirname) = inr Fs.Dir ->
  fs !! (UPLOAD_DIR dirname ++ [tmp]) = None ->
  Path.valid_name tmp = true ->
  Fs.stat fs (Path.join (UPLOAD_DIR dirname) N) = inr (Fs.File old) ->
  header_value_ok N = false ->
  startsWith "/download/" u = true ->
  decodeURIComponent (pop (split_slash u)) = Some N ->
  let up := mk_request "POST" "/upload" (Parsed (One (mk_upload tmp N B))) in
  let p := Path.join (UPLOAD_DIR dirname) N in
  let fs' := <[Path.comps p := Fs.File B]> fs in
  server dirname fs up
  = (fs', Responded (mk_response 200 json_headers
                       (success "File uploaded successfully!"
                          [("fileName", JString N)])))
  /\ Fs.stat fs' p = inr (Fs.File B)
  /\ server dirname fs' (mk_request "GET" u frm) = (fs', Threw ERR_INVALID_CHAR).
Proof.
  intros Hdir Hfresh Htmp Hst Hbad Hu Hd up p fs'.
  destruct (overwrite_replaces_entry dirname fs tmp N B old Hdir Hfresh Htmp Hst)
    as (Hup & Hst' & _).
  split; [exact Hup|]. split; [exact Hst'|].
  rewrite (download_cases dirname fs' u N frm Hu Hd).
  unfold Fs.access. cbv zeta in Hst' |- *. subst p fs'. now rewrite Hst', Hbad.
Qed.

Lemma overwrite_then_download_throws_witness :
  Fs.stat Demo.fs_sun (Path.join (UPLOAD_DIR Demo.dir) Demo.sun_txt)
  = inr (Fs.File Demo.abc)
  /\ header_value_ok Demo.sun_txt = false
  /\ decodeURIComponent (pop (split_slash "/download/%E6%97%A5.txt"))
     = Some Demo.sun_txt
  /\ server Demo.dir
       (<[["srv"; "uploads"; Demo.sun_txt] := Fs.File Demo.xyz]> Demo.fs_sun)
       (Demo.GET "/download/%E6%97%A5.txt")
     = (<[["srv"; "uploads"; Demo.sun_txt] := Fs.File Demo.xyz]> Demo.fs_sun,
        Threw ERR_INVALID_CHAR).
Proof.
  assert (Hst : Fs.stat Demo.fs_sun (Path.join (UPLOAD_DIR Demo.dir) Demo.sun_txt)
                = inr (Fs.File Demo.abc)) by (vm_compute; reflexivity).
  split; [exact Hst|]. split; [reflexivity|]. split; [reflexivity|].
  destruct (overwrite_then_download_throws Demo.dir Demo.fs_sun "b7c1" Demo.sun_txt
              Demo.xyz Demo.abc "/download/%E6%97%A5.txt" (Parsed Undefined))
    as (_ & _ & H).
  - vm_compute. reflexivity.
  - vm_compute. reflexivity.
  - reflexivity.
  - exact Hst.
  - reflexivity.
  - reflexivity.
  - reflexivity.
  - exact H.
Defined.

(** *** The scenario of the specification, run on the model *)

Example scenario_hello :
  let s1 := Demo.fs_hello in
  let s2 := (server Demo.dir s1 (Demo.DELETE "/delete/hello.txt")).1 in
  (server Demo.dir Demo.fs0
     (Demo.POST_upload (mk_upload "f3a9" "hello.txt" Demo.abc))).2
  = Responded (mk_response 200 json_headers
                 (success "File uploaded successfully!"
                    [("fileName", JString "hello.txt")]))
  /\ (server Demo.dir s1 (Demo.GET "/files")).2
     = Responded (mk_response 200 json_headers (listing ["hello.txt"]))
  /\ (server Demo.dir s1 (Demo.GET "/download/hello.txt")).2
     = Responded (mk_response 200 (attachment "hello.txt") (Data Demo.abc))
  /\ (server Demo.dir s1 (Demo.DELETE "/delete/hello.txt")).2
     = Responded (mk_response 200 json_headers
                    (success "File deleted successfully!" []))
  /\ (server Demo.dir s2 (Demo.GET "/files")).2
     = Responded (mk_response 200 json_headers (listing []))
  /\ (server Demo.dir s2 (mk_request "OPTIONS" "/anything" (Parsed Undefined))).2
     = Responded (mk_response 204 cors NoBody).
Proof. repeat split; vm_compute; reflexivity. Qed.

(** *** What the file system refuses, run on the model *)

Example refusals :
  (server Demo.dir Demo.fs_page (Demo.GET ("/" ++ Demo.long_name))).2
  = Responded (mk_response 500 cors
                 (Text "<h1>500 Internal Server Error: ENAMETOOLONG</h1>"))
  /\ (server Demo.dir Demo.fs_mixed (Demo.DELETE "/delete/lost%2F")).2
     = Responded
         (mk_response 500 json_headers
            (failure "Failed to delete file: ENOTDIR: not a directory, unlink '/srv/uploads/lost/'"))
  /\ (server Demo.dir Demo.fs0 (Demo.POST_upload (mk_upload "f3a9" "" Demo.abc))).2
     = Responded
         (mk_response 500 json_headers
            (failure_with "Error saving file."
               "ENOTEMPTY: directory not empty, rename '/srv/uploads/f3a9' -> '/srv/uploads'"))
  /\ (server Demo.dir Demo.fs_page (mk_request "HEAD" "/" (Parsed Undefined))).2
     = Responded (mk_response 200 (with_cors [("Content-Type", "text/html")]) NoBody).
Proof. repeat split; vm_compute; reflexivity. Qed.

(** ** Further properties of the current server *)

(** *** Which requests touch the disk *)

Lemma files_keeps_store dirname fs : (handle_files dirname fs).1 = fs.
Proof. unfold handle_files. now destruct (Fs.readdir fs _) as [[]|]. Qed.

Lemma download_keeps_store dirname fs req : (handle_download dirname fs req).1 = fs.
Proof.
  unfold handle_download. destruct (decodeURIComponent _); [|reflexivity].
  now destruct (Fs.access fs _) as [[]|].
Qed.

Lemma static_keeps_store dirname fs req : (handle_static dirname fs req).1 = fs.
Proof.
  unfold handle_static. cbv zeta. now destruct (Fs.readFile fs _) as [[]|].
Qed.

(** X1. A request changes the disk only through POST /upload or through
    DELETE /delete/...: every other request, OPTIONS and the static
    fallback included, leaves every entry as it was. *)
Theorem store_changes_only_on_upload_and_delete (dirname : list string)
    (fs : Fs.store) (req : request) :
  (server dirname fs req).1 <> fs ->
  (url req = "/upload" /\ method req = "POST")
  \/ (startsWith "/delete/" (url req) = true /\ method req = "DELETE").
Proof.
  unfold server. intros H.
  destruct (String.eqb (method req) "OPTIONS"); [now elim H|].
  destruct (String.eqb_spec (url req) "/upload") as [Hu|_];
    destruct (String.eqb_spec (method req) "POST") as [Hm|_]; cbn [andb] in H;
    try (left; now split).
  all: destruct (String.eqb (url req) "/files" && String.eqb (method req) "GET");
    [elim H; apply files_keeps_store|].
  all: destruct (startsWith "/download/" (url req) && String.eqb (method req) "GET");
    [elim H; apply download_keeps_store|].
  all: destruct (startsWith "/delete/" (url req)) eqn:Hd;
    destruct (String.eqb_spec (method req) "DELETE") as [Hm'|_]; cbn [andb] in H;
    try (right; now split).
  all: elim H; apply static_keeps_store.
Qed.

Lemma store_changes_only_on_upload_and_delete_witness :
  (server Demo.dir Demo.fs0
     (Demo.POST_upload (mk_upload "f3a9" "hello.txt" Demo.abc))).1 <> Demo.fs0
  /\ ((url (Demo.POST_upload (mk_upload "f3a9" "hello.txt" Demo.abc)) = "/upload"
       /\ method (Demo.POST_upload (mk_upload "f3a9" "hello.txt" Demo.abc)) = "POST")
      \/ (startsWith "/delete/"
            (url (Demo.POST_upload (mk_upload "f3a9" "hello.txt" Demo.abc))) = true
          /\ method (Demo.POST_upload (mk_upload "f3a9" "hello.txt" Demo.abc))
             = "DELETE")).
Proof.
  assert (Hne : (server Demo.dir Demo.fs0
                   (Demo.POST_upload (mk_upload "f3a9" "hello.txt" Demo.abc))).1
                <> Demo.fs0).
  { intros E.
    apply (f_equal (fun m : Fs.store => m !! ["srv"; "uploads"; "hello.txt"])) in E.
    vm_compute in E. discriminate E. }
  split; [exact Hne|].
  exact (store_changes_only_on_upload_and_delete Demo.dir Demo.fs0 _ Hne).
Defined.

(** *** The shape of the JSON answers *)

#[local] Ltac flag_agrees H :=
  first
    [ discriminate H
    | injection H as <-; split; [reflexivity|];
      eexists; split; [reflexivity|]; split; [reflexivity|];
      let Hs := fresh "Hs" in
      intros Hs;
      first [ now elim Hs
            | eexists; split; [reflexivity|discriminate] ] ].

(** X2. Every answer of the upload, listing and delete routes has content
    type [application/json] and an object whose [success] field is [true]
    exactly when the status is 200; every failure carries a non-empty
    [message].  (A request that makes the listener throw gets no
    answer.) *)
Theorem json_routes_success_flag (dirname : list string) (fs : Fs.store)
    (req : request) (r : response) :
  json_route req = true ->
  (server dirname fs req).2 = Responded r ->
  getHeader "Content-Type" (headers r) = Some "application/json"
  /\ exists fields,
       content r = Json (JObject fields)
       /\ lookup_field "success" fields = Some (JBool (Nat.eqb (status r) 200))
       /\ (status r <> 200 ->
           exists m, lookup_field "message" fields = Some (JString m) /\ m <> "").
Proof.
  destruct req as [m u frm]. unfold json_route. cbn [method url].
  intros Hroute H.
  apply andb_true_iff in Hroute as [Hopt Hroute].
  apply orb_true_iff in Hroute as [Hroute|Hroute];
    [apply orb_true_iff in Hroute as [Hroute|Hroute]|];
    apply andb_true_iff in Hroute as [Hu Hm].
  - apply String.eqb_eq in Hu, Hm. subst u m.
    rewrite upload_cases in H.
    destruct frm as [msg|field|others field]; cbn [snd] in H; [flag_agrees H| |];
      cbv zeta in H; cbn [myFile_of] in H;
      (destruct (uploadedFile field) as [f|]; cbn [snd] in H; [|flag_agrees H]);
      (destruct (Fs.rename _ _ _) as [[]|]; cbn [snd] in H; flag_agrees H).
  - apply String.eqb_eq in Hu, Hm. subst u m.
    rewrite route_files in H. unfold handle_files in H.
    destruct (Fs.readdir fs _) as [[]|]; cbv zeta in H;
      rewrite ?writeHead_end_json in H; cbn [snd] in H; flag_agrees H.
  - apply String.eqb_eq in Hm. subst m.
    destruct (decodeURIComponent (pop (split_slash u))) as [name|] eqn:Hd.
    + rewrite (delete_cases dirname fs u name frm Hu Hd) in H.
      destruct (Fs.unlink fs _) as [[]|]; cbn [snd] in H; flag_agrees H.
    + rewrite (route_delete _ _ _ _ Hu) in H. unfold handle_delete in H.
      cbn [url] in H. rewrite Hd in H. discriminate H.
Qed.

Lemma json_routes_success_flag_witness :
  json_route (Demo.DELETE "/delete/nothing") = true
  /\ (server Demo.dir Demo.fs0 (Demo.DELETE "/delete/nothing")).2
     = Responded (mk_response 404 json_headers (failure "File not found."))
  /\ exists fields,
       failure "File not found." = Json (JObject fields)
       /\ lookup_field "success" fields = Some (JBool false).
Proof.
  assert (Ha : (server Demo.dir Demo.fs0 (Demo.DELETE "/delete/nothing")).2
               = Responded (mk_response 404 json_headers (failure "File not found.")))
    by (vm_compute; reflexivity).
  split; [reflexivity|]. split; [exact Ha|].
  destruct (json_routes_success_flag Demo.dir Demo.fs0 (Demo.DELETE "/delete/nothing")
              _ eq_refl Ha) as (_ & fields & Hc & Hs & _).
  exists fields. split; [exact Hc | exact Hs].
Defined.

(** *** After a delete *)

(** What [unlink] has removed cannot be found any more. *)
Lemma unlink_gone (fs fs' : Fs.store) (p : Path.fpath) :
  Fs.unlink fs p = inr fs' -> Fs.walk fs' [] (Path.comps p) = inl Fs.ENOENT.
Proof.
  unfold Fs.unlink. destruct (Fs.lstat fs p) as [e|n] eqn:Hl; [discriminate|].
  intros H. assert (Hfs' : fs' = delete (Path.comps p) fs /\ n <> Fs.Dir)
    by (destruct n; split; congruence).
  destruct Hfs' as [-> Hn]. clear H. apply lstat_walk in Hl.
  destruct (Path.comps p) as [|c q] using rev_ind.
  - simpl in Hl. congruence.
  - clear IHq. destruct (walk_found_good fs q c n Hl Hn) as [Hnul Hlen].
    rewrite walk_snoc in Hl. rewrite walk_snoc, walk_delete_longer.
    destruct (Fs.walk fs [] q) as [e|[]]; try discriminate.
    simpl. rewrite (node_at_good _ q c Hnul Hlen). now rewrite lookup_delete_eq.
Qed.

(** X3. Once a DELETE has been answered 200, the same DELETE again is
    answered 404 "File not found." and a download of the name is answered
    404; neither changes the disk. *)
Theorem deleted_name_is_gone (dirname : list string) (fs : Fs.store)
    (u name : string) (frm : parsed) :
  startsWith "/delete/" u = true ->
  decodeURIComponent (pop (split_slash u)) = Some name ->
  status_of (server dirname fs (mk_request "DELETE" u frm)).2 = Some 200 ->
  let fs' := (server dirname fs (mk_request "DELETE" u frm)).1 in
  server dirname fs' (mk_request "DELETE" u frm)
  = (fs', Responded (mk_response 404 json_headers (failure "File not found.")))
  /\ forall u' frm',
       startsWith "/download/" u' = true ->
       decodeURIComponent (pop (split_slash u')) = Some name ->
       server dirname fs' (mk_request "GET" u' frm')
       = (fs', Responded (mk_response 404 (with_cors [("Content-Type", "text/plain")])
                            (Text "File not found."))).
Proof.
  intros Hu Hd. rewrite (delete_cases dirname fs u name frm Hu Hd).
  destruct (Fs.unlink fs _) as [e|fs'] eqn:Hun.
  - destruct e; cbn [snd status_of status]; discriminate.
  - cbn [fst snd]. intros _. apply unlink_gone in Hun. split.
    + rewrite (delete_cases dirname fs' u name frm Hu Hd).
      unfold Fs.unlink, Fs.lstat. now rewrite Hun.
    + intros u' frm' Hu' Hd'.
      rewrite (download_cases dirname fs' u' name frm' Hu' Hd').
      unfold Fs.access, Fs.stat. now rewrite Hun.
Qed.

Lemma deleted_name_is_gone_witness :
  status_of (server Demo.dir Demo.fs_hello
               (mk_request "DELETE" "/delete/hello.txt" (Parsed Undefined))).2
  = Some 200
  /\ (server Demo.dir
        (server Demo.dir Demo.fs_hello
           (mk_request "DELETE" "/delete/hello.txt" (Parsed Undefined))).1
        (mk_request "DELETE" "/delete/hello.txt" (Parsed Undefined))).2
     = Responded (mk_response 404 json_headers (failure "File not found.")).
Proof.
  assert (H200 : status_of (server Demo.dir Demo.fs_hello
                   (mk_request "DELETE" "/delete/hello.txt" (Parsed Undefined))).2
                 = Some 200) by (vm_compute; reflexivity).
  split; [exact H200|].
  destruct (deleted_name_is_gone Demo.dir Demo.fs_hello "/delete/hello.txt"
              "hello.txt" (Parsed Undefined) eq_refl eq_refl H200) as [H _].
  rewrite H. reflexivity.
Defined.

(** *** Where an upload lands *)




(** The listing of a directory whose entry names are plain. *)
Lemma files_answer dirname fs names frm :
  Fs.readdir fs (Path.mk_fpath (UPLOAD_DIR dirname) false) = inr names ->
  Forall (fun n => Path.valid_name n = true) names ->
  server dirname fs (mk_request "GET" "/files" frm)
  = (fs, Responded
           (mk_response 200 json_headers
              (listing (List.filter
                          (fun n => Fs.is_regular (fs !! (UPLOAD_DIR dirname ++ [n])))
                          names)))).
Proof.
  intros Hrd Hvalid.
  assert (Hdir : Fs.walk fs [] (UPLOAD_DIR dirname) = inr Fs.Dir).
  { apply stat_dir_walk. unfold Fs.readdir in Hrd.
    destruct (Fs.stat fs _) as [e|[]]; congruence. }
  assert (Hf : List.filter
                  (fun file =>
                     match Fs.statSync_isFile fs
                             (Path.join (UPLOAD_DIR dirname) file) with
                     | inr b => b
                     | inl _ => false
                     end) names
                = List.filter
                    (fun n => Fs.is_regular (fs !! (UPLOAD_DIR dirname ++ [n])))
                    names).
  { apply filter_ext_in. intros n Hn. rewrite Forall_forall in Hvalid.
    assert (Hv : Path.valid_name n = true) by (apply Hvalid; now apply list_elem_of_In).
    rewrite (join_valid_name _ _ Hv). destruct (valid_name_good n Hv) as [Hnul Hlen].
    unfold Fs.statSync_isFile. rewrite (stat_child _ _ _ Hdir Hnul Hlen).
    destruct (fs !! (UPLOAD_DIR dirname ++ [n])) as [[]|]; reflexivity. }
  rewrite route_files. unfold handle_files. rewrite Hrd. cbv zeta.
  now rewrite writeHead_end_json, Hf.
Qed.

Lemma NoDup_filter_count (f : string -> bool) (l : list string) (x : string) :
  NoDup l -> In x l -> f x = true ->
  count_occ string_dec (List.filter f l) x = 1.
Proof.
  intros Hnd Hin Hf.
  assert (Hnd' : List.NoDup (List.filter f l))
    by (apply List.NoDup_filter; now apply NoDup_ListNoDup).
  apply (proj1 (List.NoDup_count_occ' string_dec _) Hnd').
  apply filter_In. now split.
Qed.

(** X5. After an upload under a plain name has been answered 200, the
    listing contains that name exactly once. *)
Theorem uploaded_name_listed_once (dirname : list string) (fs : Fs.store)
    (tmp N : string) (B : Fs.bytes) (names : list string) (frm : parsed) :
  let up := mk_request "POST" "/upload" (Parsed (One (mk_upload tmp N B))) in
  let fs' := (server dirname fs up).1 in
  status_of (server dirname fs up).2 = Some 200 ->
  Path.valid_name N = true ->
  Fs.readdir fs' (Path.mk_fpath (UPLOAD_DIR dirname) false) = inr names ->
  Forall (fun n => Path.valid_name n = true) names ->
  exists files,
    server dirname fs' (mk_request "GET" "/files" frm)
    = (fs', Responded (mk_response 200 json_headers (listing files)))
    /\ count_occ string_dec files N = 1.
Proof.
  intros up fs' Hup Hvalid Hrd Hnames.
  eexists. split; [apply (files_answer dirname fs' names frm Hrd Hnames)|].
  pose proof (upload_stored dirname fs tmp N B Hup) as Hl. fold up in Hl.
  fold fs' in Hl. clearbody fs'.
  rewrite (join_valid_name _ _ Hvalid) in Hl. apply lstat_walk in Hl.
  apply walk_lookup in Hl; [|apply upload_dir_not_root]. simpl in Hl.
  destruct (readdir_spec _ _ _ Hrd) as [Hnd Hentries]. cbn [Path.comps] in Hentries.
  apply NoDup_filter_count.
  - exact Hnd.
  - apply Hentries. rewrite Hl. eauto.
  - now rewrite Hl.
Qed.

Lemma uploaded_name_listed_once_witness :
  exists files,
    server Demo.dir Demo.fs_hello (mk_request "GET" "/files" (Parsed Undefined))
    = (Demo.fs_hello, Responded (mk_response 200 json_headers (listing files)))
    /\ count_occ string_dec files "hello.txt" = 1.
Proof.
  apply (uploaded_name_listed_once Demo.dir Demo.fs0 "f3a9" "hello.txt" Demo.abc
           ["hello.txt"] (Parsed Undefined)).
  - vm_compute. reflexivity.
  - reflexivity.
  - vm_compute. reflexivity.
  - repeat constructor.
Defined.

(** X6. An upload whose form holds one file part, under [myFile], and
    that is answered 200 touches two paths only: the bytes are under the
    joined name, the staged copy is gone, and every other entry of the
    disk is what it was. *)
Theorem upload_touches_two_paths (dirname : list string) (fs : Fs.store)
    (tmp N : string) (B : Fs.bytes) :
  let up := mk_request "POST" "/upload" (Parsed (One (mk_upload tmp N B))) in
  let fs' := (server dirname fs up).1 in
  let target := Path.comps (Path.join (UPLOAD_DIR dirname) N) in
  let staging := UPLOAD_DIR dirname ++ [tmp] in
  status_of (server dirname fs up).2 = Some 200 ->
  fs' !! target = Some (Fs.File B)
  /\ (staging <> target -> fs' !! staging = None)
  /\ (forall q, q <> target -> q <> staging -> fs' !! q = fs !! q).
Proof.
  intros up fs' target staging. unfold fs', up. rewrite upload_cases.
  cbn [after_parse myFile_of uploadedFile staged originalFilename]. cbv zeta.
  destruct (Fs.rename _ _ _) as [e|fs2] eqn:Hr;
    [destruct e; cbn [fst snd status_of status]; discriminate|].
  cbn [fst snd status_of status]. intros _.
  apply rename_success in Hr as (n & Hn & _ & -> & _); [|apply filepath_not_root].
  unfold stage in *. cbn [filepath newFilename data Path.comps] in *.
  fold staging in Hn |- *. fold target.
  rewrite lookup_insert_eq in Hn. injection Hn as <-.
  split; [apply lookup_insert_eq|]. split.
  - intros Hne. rewrite lookup_insert_ne by congruence. apply lookup_delete_eq.
  - intros q Hq1 Hq2.
    rewrite lookup_insert_ne, lookup_delete_ne, lookup_insert_ne by congruence.
    reflexivity.
Qed.

Lemma upload_touches_two_paths_witness :
  Demo.fs_hello !! ["srv"; "uploads"; "hello.txt"] = Some (Fs.File Demo.abc)
  /\ Demo.fs_hello !! ["srv"; "uploads"; "f3a9"] = None.
Proof.
  destruct (upload_touches_two_paths Demo.dir Demo.fs0 "f3a9" "hello.txt" Demo.abc)
    as (H1 & H2 & _).
  - vm_compute. reflexivity.
  - split; [exact H1|]. apply H2. vm_compute. discriminate.
Defined.

(** X7. When the move of the one uploaded file fails with an answer 500,
    the staged copy stays in the upload directory under the name
    formidable gave it, and from then on the listing shows that name
    among the stored files. *)
Theorem failed_move_leaves_staged_copy (dirname : list string) (fs : Fs.store)
    (tmp N : string) (B : Fs.bytes) (names : list string) (frm : parsed) :
  let up := mk_request "POST" "/upload" (Parsed (One (mk_upload tmp N B))) in
  let fs' := (server dirname fs up).1 in
  status_of (server dirname fs up).2 = Some 500 ->
  Fs.readdir fs' (Path.mk_fpath (UPLOAD_DIR dirname) false) = inr names ->
  Forall (fun n => Path.valid_name n = true) names ->
  fs' !! (UPLOAD_DIR dirname ++ [tmp]) = Some (Fs.File B)
  /\ exists files,
       server dirname fs' (mk_request "GET" "/files" frm)
       = (fs', Responded (mk_response 200 json_headers (listing files)))
       /\ In tmp files.
Proof.
  intros up fs' Hup Hrd Hnames.
  assert (Hst : fs' !! (UPLOAD_DIR dirname ++ [tmp]) = Some (Fs.File B)).
  { revert Hup. unfold fs', up. rewrite upload_cases.
    cbn [after_parse myFile_of uploadedFile staged originalFilename]. cbv zeta.
    destruct (Fs.rename _ _ _) as [e|fs2];
      [|cbn [fst snd status_of status]; discriminate].
    intros _. destruct e; cbn [fst]; apply lookup_insert_eq. }
  split; [exact Hst|]. clearbody fs'.
  eexists. split; [apply (files_answer dirname fs' names frm Hrd Hnames)|].
  destruct (readdir_spec _ _ _ Hrd) as [_ Hentries]. cbn [Path.comps] in Hentries.
  apply filter_In. split.
  - apply Hentries. rewrite Hst. eauto.
  - now rewrite Hst.
Qed.

Lemma failed_move_leaves_staged_copy_witness :
  status_of (server Demo.dir Demo.fs0
               (mk_request "POST" "/upload"
                  (Parsed (One (mk_upload "f3a9" "a/b" Demo.abc))))).2 = Some 500
  /\ exists files,
       (server Demo.dir
          (server Demo.dir Demo.fs0
             (mk_request "POST" "/upload"
                (Parsed (One (mk_upload "f3a9" "a/b" Demo.abc))))).1
          (Demo.GET "/files")).2
       = Responded (mk_response 200 json_headers (listing files))
       /\ In "f3a9" files.
Proof.
  assert (H : status_of (server Demo.dir Demo.fs0
                (mk_request "POST" "/upload"
                   (Parsed (One (mk_upload "f3a9" "a/b" Demo.abc))))).2 = Some 500)
    by (vm_compute; reflexivity).
  split; [exact H|].
  destruct (failed_move_leaves_staged_copy Demo.dir Demo.fs0 "f3a9" "a/b" Demo.abc
              ["f3a9"] (Parsed Undefined) H) as (_ & files & Hf & Hin).
  - vm_compute. reflexivity.
  - repeat constructor.
  - exists files. unfold Demo.GET. rewrite Hf. split; [reflexivity | exact Hin].
Defined.

(** *** Several files under [myFile] *)

Lemma fold_stage_other (dirname : list string) (l : list upload) (fs : Fs.store) (k : list string) :
  (forall g, In g l -> UPLOAD_DIR dirname ++ [newFilename g] <> k) ->
  fold_left (stage dirname) l fs !! k = fs !! k.
Proof.
  revert fs. induction l as [|g l IH]; intros fs Hk; simpl; [reflexivity|].
  rewrite IH by (intros g' Hg'; apply Hk; now right).
  unfold stage. cbn [filepath Path.comps].
  apply lookup_insert_ne. apply Hk. now left.
Qed.

Lemma fold_stage_lookup (dirname : list string) (l : list upload) (fs : Fs.store) (g : upload) :
  List.NoDup (map newFilename l) -> In g l ->
  fold_left (stage dirname) l fs !! (UPLOAD_DIR dirname ++ [newFilename g])
  = Some (Fs.File (data g)).
Proof.
  revert fs. induction l as [|h l IH]; intros fs Hnd Hin; [destruct Hin|].
  simpl in Hnd. apply List.NoDup_cons_iff in Hnd as [Hh Hnd]. simpl.
  destruct Hin as [->|Hin].
  - rewrite fold_stage_other.
    + unfold stage. cbn [filepath Path.comps]. apply lookup_insert_eq.
    + intros g' Hg' E. apply app_inj_tail in E as [_ E].
      apply Hh. rewrite <- E. now apply in_map.
  - now apply IH.
Qed.

(** X8. When [myFile] holds several files, only the first is moved to its
    name: after the 200 answer every further file is still in the upload
    directory under its staging name, with its bytes. *)
Theorem further_files_stay_staged (dirname : list string) (fs : Fs.store)
    (f g : upload) (rest : list upload) :
  let up := mk_request "POST" "/upload" (Parsed (Many (f :: rest))) in
  status_of (server dirname fs up).2 = Some 200 ->
  List.NoDup (map newFilename (f :: rest)) ->
  In g rest ->
  Path.comps (Path.join (UPLOAD_DIR dirname) (originalFilename f))
  <> UPLOAD_DIR dirname ++ [newFilename g] ->
  (server dirname fs up).1 !! (UPLOAD_DIR dirname ++ [newFilename g])
  = Some (Fs.File (data g)).
Proof.
  intros up. unfold up. rewrite upload_cases.
  cbn [after_parse myFile_of uploadedFile head staged]. cbv zeta.
  destruct (Fs.rename _ _ _) as [e|fs2] eqn:Hr;
    [destruct e; cbn [fst snd status_of status]; discriminate|].
  cbn [fst snd status_of status]. intros _ Hnd Hin Htarget.
  apply rename_success in Hr as (n & _ & _ & -> & _); [|apply filepath_not_root].
  rewrite lookup_insert_ne by exact Htarget.
  rewrite lookup_delete_ne.
  - apply fold_stage_lookup; [exact Hnd | now right].
  - cbn [filepath Path.comps]. intros E. apply app_inj_tail in E as [_ E].
    simpl in Hnd. apply List.NoDup_cons_iff in Hnd as [Hf _].
    apply Hf. rewrite E. now apply in_map.
Qed.

Lemma further_files_stay_staged_witness :
  (server Demo.dir Demo.fs0
     (mk_request "POST" "/upload"
        (Parsed (Many [mk_upload "f3a9" "one.txt" Demo.abc;
                       mk_upload "b7c1" "two.txt" Demo.xyz])))).1
  !! ["srv"; "uploads"; "b7c1"] = Some (Fs.File Demo.xyz).
Proof.
  apply (further_files_stay_staged Demo.dir Demo.fs0
           (mk_upload "f3a9" "one.txt" Demo.abc) (mk_upload "b7c1" "two.txt" Demo.xyz)
           [mk_upload "b7c1" "two.txt" Demo.xyz]).
  - vm_compute. reflexivity.
  - repeat constructor; simpl; intuition discriminate.
  - now left.
  - vm_compute. discriminate.
Defined.

(** *** Where a joined name can lead *)

Lemma norm_step_keeps_prefix (base stack : list string) (c : string) :
  c <> ".." -> base `prefix_of` stack -> base `prefix_of` Path.norm_step stack c.
Proof.
  intros Hc Hp. unfold Path.norm_step.
  destruct (String.eqb c "" || String.eqb c "."); [exact Hp|].
  destruct (String.eqb_spec c ".."); [contradiction|].
  now apply prefix_app_r.
Qed.

(** X9. [path.join] leaves the base directory only through a [..] piece:
    a name none of whose pieces between slashes is [..] is resolved at or
    below the directory it is joined to (the upload directory for upload,
    download and delete, the public directory for static files). *)
Theorem join_without_dotdot_stays_below (base : list string) (rel : string) :
  Forall (fun c => c <> "..") (split_slash rel) ->
  base `prefix_of` Path.comps (Path.join base rel).
Proof.
  unfold Path.join. cbn [Path.comps]. intros H.
  assert (G : forall stack, base `prefix_of` stack ->
                base `prefix_of` fold_left Path.norm_step (split_slash rel) stack).
  { induction H as [|c cs Hc _ IH]; intros stack Hp; simpl; [exact Hp|].
    apply IH. now apply norm_step_keeps_prefix. }
  now apply G.
Qed.

Lemma join_without_dotdot_stays_below_witness :
  ["srv"; "uploads"] `prefix_of`
    Path.comps (Path.join ["srv"; "uploads"] "a/./b//c.txt").
Proof.
  apply join_without_dotdot_stays_below.
  repeat (constructor; [discriminate|]). constructor.
Defined.

Lemma ends_with_slash_cons (c : ascii) (s : string) :
  s <> "" -> ends_with_slash (String c s) = ends_with_slash s.
Proof. destruct s; [congruence|reflexivity]. Qed.







(** ** Percent-encoding by the client, decoding by the server *)

Lemma unescape_encode_byte (c : ascii) (rest : list ascii) :
  unescape (Uri.encode_byte c ++ rest)
  = option_map (cons (Uri.token_of c)) (unescape rest).
Proof. destruct c as [[] [] [] [] [] [] [] []]; reflexivity. Qed.

Lemma unescape_encoded (l : list ascii) :
  unescape (flat_map Uri.encode_byte l) = Some (map Uri.token_of l).
Proof.
  induction l as [|c l IH]; [reflexivity|].
  cbn [flat_map map]. now rewrite unescape_encode_byte, IH.
Qed.

Lemma check_low_token (c : ascii) (toks : list token) :
  (N_of_ascii c <? 128)%N = true ->
  utf8_check (Uri.token_of c :: toks) = option_map (cons c) (utf8_check toks).
Proof.
  destruct c as [[] [] [] [] [] [] [] []]; intros H;
    first [discriminate H | reflexivity].
Qed.

Lemma high_token (c : ascii) :
  (N_of_ascii c <? 128)%N = false -> Uri.token_of c = Esc (N_of_ascii c).
Proof.
  destruct c as [[] [] [] [] [] [] [] []]; intros H;
    first [discriminate H | reflexivity].
Qed.

Lemma in_range_high (lo hi x : N) :
  (128 <= lo)%N -> in_range lo hi x = true -> (x <? 128)%N = false.
Proof.
  unfold in_range. intros Hlo H. apply andb_true_iff in H as [H _].
  apply N.leb_le in H. apply N.ltb_ge. lia.
Qed.

Lemma cont_high (x : N) : cont x = true -> (x <? 128)%N = false.
Proof. apply in_range_high. lia. Qed.

(** The second lead-dependent condition of a three or four byte sequence
    makes the second byte a high one. *)
Lemma second_byte_high (b x lo1 hi1 lo2 hi2 : N) (k1 k2 : N) :
  (128 <= lo1)%N -> (128 <= lo2)%N ->
  (if (b =? k1)%N then in_range lo1 hi1 x
   else if (b =? k2)%N then in_range lo2 hi2 x else cont x) = true ->
  (x <? 128)%N = false.
Proof.
  intros H1 H2. destruct (b =? k1)%N; [now apply in_range_high|].
  destruct (b =? k2)%N; [now apply in_range_high | apply cont_high].
Qed.

Lemma check_encoded (l : list ascii) :
  Uri.well_formed l = true -> utf8_check (map Uri.token_of l) = Some l.
Proof.
  revert l. fix IH 1. intros [|c rest] Hwf; [reflexivity|].
  cbn [Uri.well_formed] in Hwf. cbn [map].
  destruct (N_of_ascii c <? 128)%N eqn:Hlt.
  { rewrite (check_low_token c _ Hlt), (IH rest Hwf). reflexivity. }
  rewrite (high_token c Hlt).
  destruct (in_range 194 223 (N_of_ascii c)) eqn:H2.
  { destruct rest as [|c1 rest']; [discriminate Hwf|].
    apply andb_true_iff in Hwf as [Hc1 Hwf].
    cbn [map]. rewrite (high_token c1 (cont_high _ Hc1)).
    cbn [utf8_check]. rewrite Hlt, H2, Hc1, (IH rest' Hwf).
    cbn [option_map]. now rewrite !ascii_N_embedding. }
  destruct (in_range 224 239 (N_of_ascii c)) eqn:H3.
  { destruct rest as [|c1 [|c2 rest']]; try discriminate Hwf.
    apply andb_true_iff in Hwf as [Hwf Hrest].
    apply andb_true_iff in Hwf as [Hc1 Hc2].
    cbn [map].
    assert (Hh1 : (N_of_ascii c1 <? 128)%N = false)
      by (eapply second_byte_high; cycle 2; [exact Hc1 | lia | lia]).
    rewrite (high_token c1 Hh1).
    rewrite (high_token c2 (cont_high _ Hc2)).
    cbn [utf8_check]. rewrite Hlt, H2, H3, Hc1, Hc2, (IH rest' Hrest).
    cbn [andb option_map]. now rewrite !ascii_N_embedding. }
  destruct (in_range 240 244 (N_of_ascii c)) eqn:H4; [|discriminate Hwf].
  destruct rest as [|c1 [|c2 [|c3 rest']]]; try discriminate Hwf.
  apply andb_true_iff in Hwf as [Hwf Hrest].
  apply andb_true_iff in Hwf as [Hwf Hc3].
  apply andb_true_iff in Hwf as [Hc1 Hc2].
  cbn [map].
  assert (Hh1 : (N_of_ascii c1 <? 128)%N = false)
    by (eapply second_byte_high; cycle 2; [exact Hc1 | lia | lia]).
  rewrite (high_token c1 Hh1).
  rewrite (high_token c2 (cont_high _ Hc2)), (high_token c3 (cont_high _ Hc3)).
  cbn [utf8_check]. rewrite Hlt, H2, H3, H4, Hc1, Hc2, Hc3, (IH rest' Hrest).
  cbn [andb option_map]. now rewrite !ascii_N_embedding.
Qed.

Lemma decode_encoded (s e : string) :
  Uri.encodeURIComponent s = Some e -> decodeURIComponent e = Some s.
Proof.
  unfold Uri.encodeURIComponent, decodeURIComponent.
  destruct (Uri.well_formed (list_ascii_of_string s)) eqn:Hwf; [|discriminate].
  intros [= <-].
  rewrite list_ascii_of_string_of_list_ascii, unescape_encoded.
  rewrite (check_encoded _ Hwf). cbn [option_map].
  now rewrite string_of_list_ascii_of_string.
Qed.

(** X12. What [encodeURIComponent] produces, [decodeURIComponent] reads
    back: if the client's encoding of a name succeeds, the server's
    decoding of the result is that name.  (The client also relies on it
    for the name kept in [data-filename].) *)
Theorem decode_encode_roundtrip (s e : string) :
  Uri.encodeURIComponent s = Some e -> decodeURIComponent e = Some s.
Proof.
  unfold Uri.encodeURIComponent, decodeURIComponent.
  destruct (Uri.well_formed (list_ascii_of_string s)) eqn:Hwf; [|discriminate].
  intros [= <-].
  rewrite list_ascii_of_string_of_list_ascii, unescape_encoded.
  rewrite (check_encoded _ Hwf). cbn [option_map].
  now rewrite string_of_list_ascii_of_string.
Qed.

Lemma decode_encode_roundtrip_witness :
  Uri.encodeURIComponent "r&d 100%/v2.txt" = Some "r%26d%20100%25%2Fv2.txt"
  /\ decodeURIComponent "r%26d%20100%25%2Fv2.txt" = Some "r&d 100%/v2.txt".
Proof.
  assert (H : Uri.encodeURIComponent "r&d 100%/v2.txt" = Some "r%26d%20100%25%2Fv2.txt")
    by reflexivity.
  split; [exact H | exact (decode_encode_roundtrip _ _ H)].
Defined.

Lemma unescape_plain (s : string) :
  has_percent s = false ->
  unescape (list_ascii_of_string s) = Some (map Raw (list_ascii_of_string s)).
Proof.
  induction s as [|c s IH]; simpl; [reflexivity|].
  destruct (Ascii.eqb c "%"); [discriminate|]. simpl.
  intros H. now rewrite (IH H).
Qed.

Lemma check_raw (l : list ascii) : utf8_check (map Raw l) = Some l.
Proof. induction l as [|c l IH]; simpl; [reflexivity | now rewrite IH]. Qed.

(** X13. A string without [%] is its own decoding: such a last URL
    segment is taken as the file name byte for byte. *)
Theorem decode_without_percent (s : string) :
  has_percent s = false -> decodeURIComponent s = Some s.
Proof.
  intros H. unfold decodeURIComponent.
  rewrite (unescape_plain s H), check_raw. cbn [option_map].
  now rewrite string_of_list_ascii_of_string.
Qed.

Lemma decode_without_percent_witness :
  decodeURIComponent "hello world.txt" = Some "hello world.txt".
Proof. apply decode_without_percent. reflexivity. Defined.

(** *** Malformed escapes *)

Lemma unescape_bad_here (rest : list ascii) :
  bad_escape rest = true -> unescape ("%"%char :: rest) = None.
Proof.
  intros Hbad. simpl. destruct rest as [|h [|l rest']]; try reflexivity.
  simpl in Hbad. destruct (hex_digit h), (hex_digit l); (reflexivity || discriminate).
Qed.

Lemma unescape_bad (a rest : list ascii) :
  bad_escape rest = true -> unescape (a ++ "%"%char :: rest) = None.
Proof.
  intros Hbad. revert a. fix IH 1. intros [|c a].
  - apply unescape_bad_here, Hbad.
  - cbn [app unescape]. destruct (Ascii.eqb c "%").
    + destruct a as [|h [|l a]]; cbn [app].
      * clear IH. change (hex_digit "%"%char) with (@None N). now destruct rest.
      * clear IH. change (hex_digit "%"%char) with (@None N).
        now destruct (hex_digit h).
      * destruct (hex_digit h), (hex_digit l); try reflexivity. now rewrite IH.
    + now rewrite IH.
Qed.

(** *** The last segment of a URL *)

Lemma split_slash_nonempty (s : string) : split_slash s <> [].
Proof.
  destruct s as [|c s]; cbn [split_slash]; [discriminate|].
  destruct (Ascii.eqb c "/"); [discriminate|].
  destruct (split_slash s); discriminate.
Qed.

Lemma split_slash_cons (c : ascii) (s : string) :
  Ascii.eqb c "/" = false ->
  exists p ps, split_slash s = p :: ps /\ split_slash (String c s) = String c p :: ps.
Proof.
  intros Hc. cbn [split_slash]. rewrite Hc.
  destruct (split_slash s) as [|p ps] eqn:E; [|eauto].
  now apply split_slash_nonempty in E.
Qed.

(** Splitting distributes over an explicit slash. *)
Lemma split_slash_app (d seg : string) :
  split_slash (d +:+ String "/" seg) = split_slash d ++ split_slash seg.
Proof.
  induction d as [|c d IH].
  - reflexivity.
  - change (String c d +:+ String "/" seg) with (String c (d +:+ String "/" seg)).
    destruct (Ascii.eqb c "/") eqn:Hc.
    + cbn [split_slash]. rewrite Hc, IH. reflexivity.
    + destruct (split_slash_cons c (d +:+ String "/" seg) Hc) as (p & ps & E1 & E2).
      destruct (split_slash_cons c d Hc) as (p' & ps' & E1' & E2').
      rewrite E2, E2'. rewrite IH, E1' in E1. injection E1 as <- <-. reflexivity.
Qed.

Lemma last_app_nonempty (l1 l2 : list string) (d : string) :
  l2 <> [] -> List.last (l1 ++ l2) d = List.last l2 d.
Proof.
  intros H. induction l1 as [|x l1 IH]; [reflexivity|].
  simpl. destruct (l1 ++ l2) eqn:E; [|exact IH].
  apply app_eq_nil in E as [_ E]. contradiction.
Qed.

(** The name the handlers use is what follows the last slash. *)
Lemma last_segment (d seg : string) :
  has_slash seg = false -> pop (split_slash (d +:+ String "/" seg)) = seg.
Proof.
  intros Hs. unfold pop. rewrite split_slash_app, last_app_nonempty.
  - now rewrite (split_slash_plain _ Hs).
  - rewrite (split_slash_plain _ Hs). discriminate.
Qed.

Lemma starts_with_route (seg : string) :
  startsWith "/download/" ("/download/" ++ seg) = true
  /\ startsWith "/delete/" ("/delete/" ++ seg) = true.
Proof. destruct seg; split; reflexivity. Qed.

(** X14. Every download or delete URL whose last segment holds a [%] that
    is not followed by two hexadecimal digits makes the listener throw
    [URIError] without a response, whatever is on the disk. *)
Theorem malformed_segment_throws (dirname : list string) (fs : Fs.store)
    (seg : string) (a rest : list ascii) (frm : parsed) :
  has_slash seg = false ->
  list_ascii_of_string seg = a ++ "%"%char :: rest ->
  bad_escape rest = true ->
  server dirname fs (mk_request "GET" ("/download/" ++ seg) frm) = (fs, Threw URIError)
  /\ server dirname fs (mk_request "DELETE" ("/delete/" ++ seg) frm)
     = (fs, Threw URIError).
Proof.
  intros Hs Hseg Hbad.
  assert (Hd : decodeURIComponent seg = None).
  { unfold decodeURIComponent. now rewrite Hseg, (unescape_bad a rest Hbad). }
  split.
  - rewrite route_download by apply starts_with_route.
    unfold handle_download. cbn [url].
    change ("/download/" ++ seg)%string with ("/download" +:+ String "/" seg).
    now rewrite (last_segment _ _ Hs), Hd.
  - rewrite route_delete by apply starts_with_route.
    unfold handle_delete. cbn [url].
    change ("/delete/" ++ seg)%string with ("/delete" +:+ String "/" seg).
    now rewrite (last_segment _ _ Hs), Hd.
Qed.

Lemma malformed_segment_throws_witness :
  server Demo.dir Demo.fs_hello (mk_request "GET" "/download/100%.txt" (Parsed Undefined))
  = (Demo.fs_hello, Threw URIError).
Proof.
  destruct (malformed_segment_throws Demo.dir Demo.fs_hello "100%.txt"
              ["1"; "0"; "0"]%char [("."%char); "t"; "x"; "t"]%char (Parsed Undefined))
    as [H _]; [reflexivity | reflexivity | reflexivity | exact H].
Defined.

(** *** The requests of the browser client *)

Lemma has_slash_of_list (l : list ascii) :
  has_slash (string_of_list_ascii l) = existsb (fun c => Ascii.eqb c "/") l.
Proof. induction l as [|c l IH]; simpl; [reflexivity | now rewrite IH]. Qed.

Lemma encode_byte_no_slash (c : ascii) :
  existsb (fun x => Ascii.eqb x "/") (Uri.encode_byte c) = false.
Proof. destruct c as [[] [] [] [] [] [] [] []]; reflexivity. Qed.

Lemma encoded_no_slash (s e : string) :
  Uri.encodeURIComponent s = Some e -> has_slash e = false.
Proof.
  unfold Uri.encodeURIComponent. destruct (Uri.well_formed _); [|discriminate].
  intros [= <-]. rewrite has_slash_of_list.
  induction (list_ascii_of_string s) as [|c l IH]; [reflexivity|].
  cbn [flat_map]. now rewrite existsb_app, encode_byte_no_slash, IH.
Qed.

(** The request the client builds names the file, whatever bytes the name
    holds. *)
Lemma client_path_names (route N e : string) :
  N <> "." -> N <> ".." -> Uri.encodeURIComponent N = Some e ->
  Client.request_path route e = ("/" ++ route ++ "/" ++ e)%string
  /\ decodeURIComponent (pop (split_slash (Client.request_path route e))) = Some N.
Proof.
  intros H1 H2 He. pose proof (decode_encoded N e He) as Hd.
  unfold Client.request_path.
  destruct (String.eqb_spec e ".") as [->|_].
  { change (decodeURIComponent ".") with (Some ".") in Hd. congruence. }
  destruct (String.eqb_spec e "..") as [->|_].
  { change (decodeURIComponent "..") with (Some "..") in Hd. congruence. }
  split; [reflexivity|].
  change ("/" ++ route ++ "/" ++ e)%string with (String "/" route +:+ String "/" e).
  now rewrite (last_segment _ _ (encoded_no_slash N e He)).
Qed.

(** X15. For every file name other than [.] and [..] that can be
    encoded, the DELETE request and the download link the client builds
    reach the delete and download routes, and the name the server decodes
    from them is that file name, whatever characters it holds
    (separators, [%], spaces, non-ASCII). *)
Theorem client_requests_name_the_file (N : string) (req : request) :
  N <> "." -> N <> ".." ->
  (Client.delete_request N = Some req ->
   method req = "DELETE" /\ startsWith "/delete/" (url req) = true
   /\ decodeURIComponent (pop (split_slash (url req))) = Some N)
  /\ (Client.download_request N = Some req ->
      method req = "GET" /\ startsWith "/download/" (url req) = true
      /\ decodeURIComponent (pop (split_slash (url req))) = Some N).
Proof.
  intros H1 H2. unfold Client.delete_request, Client.download_request.
  destruct (Uri.encodeURIComponent N) as [e|] eqn:He; [|split; discriminate].
  split; intros [= <-]; cbn [method url]; (split; [reflexivity|]).
  - destruct (client_path_names "delete" N e H1 H2 He) as [Hp Hd].
    split; [rewrite Hp; apply starts_with_route | exact Hd].
  - destruct (client_path_names "download" N e H1 H2 He) as [Hp Hd].
    split; [rewrite Hp; apply starts_with_route | exact Hd].
Qed.

Lemma client_requests_name_the_file_witness :
  Client.delete_request "a/b 50%.txt"
  = Some (mk_request "DELETE" "/delete/a%2Fb%2050%25.txt" (Parsed Undefined))
  /\ decodeURIComponent (pop (split_slash "/delete/a%2Fb%2050%25.txt"))
     = Some "a/b 50%.txt".
Proof.
  assert (H : Client.delete_request "a/b 50%.txt"
              = Some (mk_request "DELETE" "/delete/a%2Fb%2050%25.txt" (Parsed Undefined)))
    by reflexivity.
  split; [exact H|].
  destruct (client_requests_name_the_file "a/b 50%.txt"
              (mk_request "DELETE" "/delete/a%2Fb%2050%25.txt" (Parsed Undefined))
              ltac:(discriminate) ltac:(discriminate)) as [Hd _].
  destruct (Hd H) as (_ & _ & Hn). exact Hn.
Defined.

(** X16. End to end: for a regular file listed under a plain name, the
    client's DELETE request makes the server remove exactly that entry
    and answer 200, and the client's download link is answered 200 with
    the bytes of the file (when the name is a legal header value). *)
Theorem client_buttons_reach_the_listed_file (dirname : list string)
    (fs : Fs.store) (N : string) (b : Fs.bytes) (req_delete req_download : request) :
  Path.valid_name N = true ->
  Fs.walk fs [] (UPLOAD_DIR dirname ++ [N]) = inr (Fs.File b) ->
  Client.delete_request N = Some req_delete ->
  Client.download_request N = Some req_download ->
  server dirname fs req_delete
  = (delete (UPLOAD_DIR dirname ++ [N]) fs,
     Responded (mk_response 200 json_headers (success "File deleted successfully!" [])))
  /\ (header_value_ok N = true ->
      server dirname fs req_download
      = (fs, Responded (mk_response 200 (attachment N) (Data b)))).
Proof.
  intros Hvalid Hw. unfold Client.delete_request, Client.download_request.
  destruct (Uri.encodeURIComponent N) as [e|] eqn:He; [|discriminate].
  intros [= <-] [= <-].
  destruct (valid_name_facts N Hvalid) as (_ & H1 & H2 & _).
  assert (Hl : Fs.lstat fs (Path.join (UPLOAD_DIR dirname) N) = inr (Fs.File b)).
  { rewrite (join_valid_name _ _ Hvalid). unfold Fs.lstat.
    cbn [Path.comps Path.trailing]. now rewrite Hw. }
  split.
  - destruct (client_path_names "delete" N e H1 H2 He) as [Hp Hd].
    assert (Hs : startsWith "/delete/" (Client.request_path "delete" e) = true)
      by (rewrite Hp; apply starts_with_route).
    rewrite (delete_cases dirname fs _ N _ Hs Hd).
    unfold Fs.unlink. rewrite Hl. now rewrite (join_valid_name _ _ Hvalid).
  - intros Hok. destruct (client_path_names "download" N e H1 H2 He) as [Hp Hd].
    apply download_of_file; auto. rewrite Hp. apply starts_with_route.
Qed.

Lemma client_buttons_reach_the_listed_file_witness :
  server Demo.dir Demo.fs_hello
    (mk_request "DELETE" "/delete/hello.txt" (Parsed Undefined))
  = (delete ["srv"; "uploads"; "hello.txt"] Demo.fs_hello,
     Responded (mk_response 200 json_headers (success "File deleted successfully!" []))).
Proof.
  destruct (client_buttons_reach_the_listed_file Demo.dir Demo.fs_hello "hello.txt"
              Demo.abc
              (mk_request "DELETE" "/delete/hello.txt" (Parsed Undefined))
              (mk_request "GET" "/download/hello.txt" (Parsed Undefined)))
    as [H _].
  - reflexivity.
  - vm_compute. reflexivity.
  - reflexivity.
  - reflexivity.
  - exact H.
Defined.

(** ** The older server *)

Lemma setHeader_swap (n v m w : string) (l : list (string * string)) :
  n <> m -> is_Some (getHeader n l) ->
  setHeader n v (setHeader m w l) = setHeader m w (setHeader n v l).
Proof.
  intros Hnm. induction l as [|[k x] l IH]; intros Hin.
  - simpl in Hin. now destruct Hin.
  - assert (Hmn : String.eqb m n = false) by (apply String.eqb_neq; congruence).
    assert (Hnm' : String.eqb n m = false) by now apply String.eqb_neq.
    cbn [setHeader getHeader] in *.
    destruct (String.eqb k m) eqn:Ekm; destruct (String.eqb k n) eqn:Ekn;
      cbn [setHeader]; rewrite ?Ekm, ?Ekn, ?Hmn, ?Hnm'; try reflexivity.
    + apply String.eqb_eq in Ekm, Ekn. congruence.
    + now rewrite IH.
Qed.

Lemma getHeader_setHeader_some (n m w : string) (l : list (string * string)) :
  is_Some (getHeader n l) -> is_Some (getHeader n (setHeader m w l)).
Proof.
  intros H. destruct (String.eqb_spec n m) as [->|Hnm].
  - rewrite getHeader_setHeader_same. eauto.
  - now rewrite getHeader_setHeader_other.
Qed.

Lemma fold_setHeader_relabel (hs set : list (string * string)) (v : string) :
  Forall foreign hs ->
  is_Some (getHeader "Access-Control-Allow-Methods" set) ->
  fold_left (fun acc h => setHeader h.1 h.2 acc) hs
    (setHeader "Access-Control-Allow-Methods" v set)
  = setHeader "Access-Control-Allow-Methods" v
      (fold_left (fun acc h => setHeader h.1 h.2 acc) hs set).
Proof.
  intros Hf. revert set. induction Hf as [|h hs (_ & Hh & _) _ IH]; intros set Hs.
  - reflexivity.
  - cbn [fold_left]. rewrite <- IH by now apply getHeader_setHeader_some.
    f_equal. symmetry. apply setHeader_swap; [congruence | exact Hs].
Qed.

(** A response of the older server is the current one's with the older
    list of methods. *)
Lemma writeHead_end_legacy st hs b :
  Forall foreign hs ->
  writeHead_end st hs b cors_legacy = Legacy.relabel (writeHead_end st hs b cors).
Proof.
  intros Hf. unfold writeHead_end.
  destruct (forallb _ hs); [|reflexivity].
  cbn [Legacy.relabel status headers content]. do 2 f_equal.
  change cors_legacy with (setHeader "Access-Control-Allow-Methods" "GET, POST, OPTIONS" cors).
  apply fold_setHeader_relabel; [exact Hf|]. now exists "GET, POST, DELETE, OPTIONS".
Qed.

#[local] Ltac legacy_leaves :=
  repeat case_match; cbn [fst snd];
  rewrite ?writeHead_end_legacy by foreign_headers; reflexivity.

Lemma legacy_upload_agrees dirname fs req :
  Legacy.handle_upload dirname fs req
  = ((handle_upload dirname fs req).1, Legacy.relabel (handle_upload dirname fs req).2).
Proof. unfold Legacy.handle_upload, handle_upload. legacy_leaves. Qed.

Lemma legacy_files_agrees dirname fs :
  Legacy.handle_files dirname fs
  = ((handle_files dirname fs).1, Legacy.relabel (handle_files dirname fs).2).
Proof. unfold Legacy.handle_files, handle_files. legacy_leaves. Qed.

Lemma legacy_download_agrees dirname fs req :
  Legacy.handle_download dirname fs req
  = ((handle_download dirname fs req).1,
     Legacy.relabel (handle_download dirname fs req).2).
Proof.
  unfold Legacy.handle_download, handle_download, Legacy.text_plain. legacy_leaves.
Qed.

(** X17. On the routes both servers have (OPTIONS, POST /upload, GET
    /files, GET /download/...), the older server of [src/client.js] does
    to the disk what the current one does and answers the same status,
    body and headers, but for [Access-Control-Allow-Methods], which is
    [GET, POST, OPTIONS]. *)
Theorem legacy_agrees_on_shared_routes (dirname : list string) (fs : Fs.store)
    (req : request) :
  Legacy.shared_route req = true ->
  Legacy.server dirname fs req
  = ((server dirname fs req).1, Legacy.relabel (server dirname fs req).2).
Proof.
  unfold Legacy.shared_route, Legacy.server, server. intros H.
  destruct (String.eqb (method req) "OPTIONS").
  { cbn [fst snd]. now rewrite writeHead_end_legacy by constructor. }
  destruct (String.eqb (url req) "/upload" && String.eqb (method req) "POST").
  { apply legacy_upload_agrees. }
  destruct (String.eqb (url req) "/files" && String.eqb (method req) "GET").
  { apply legacy_files_agrees. }
  destruct (startsWith "/download/" (url req) && String.eqb (method req) "GET").
  { apply legacy_download_agrees. }
  discriminate H.
Qed.

Lemma legacy_agrees_on_shared_routes_witness :
  Legacy.server Demo.dir Demo.fs_hello (Demo.GET "/download/hello.txt")
  = (Demo.fs_hello,
     Legacy.relabel (Responded (mk_response 200 (attachment "hello.txt")
                                  (Data Demo.abc)))).
Proof.
  rewrite (legacy_agrees_on_shared_routes Demo.dir Demo.fs_hello
             (Demo.GET "/download/hello.txt") eq_refl).
  vm_compute. reflexivity.
Defined.

Lemma legacy_outcome_shape dirname fs req :
  (exists e, (Legacy.server dirname fs req).2 = Threw e)
  \/ (exists st hs b,
        Forall foreign hs
        /\ (Legacy.server dirname fs req).2 = writeHead_end st hs b cors_legacy).
Proof.
  unfold Legacy.server, Legacy.handle_upload, Legacy.handle_files,
    Legacy.handle_download, Legacy.handle_client_js, Legacy.handle_fallback,
    Legacy.text_plain.
  repeat case_match; cbn [snd];
    first [ left; eexists; reflexivity
          | right; do 3 eexists; split; cycle 1; [reflexivity | foreign_headers] ].
Qed.

(** X18. Every response of the older server carries
    [Access-Control-Allow-Origin: *], [Access-Control-Allow-Methods: GET,
    POST, OPTIONS] and [Access-Control-Allow-Headers: Content-Type,
    X-Requested-With]. *)
Theorem legacy_cors_on_every_response (dirname : list string) (fs : Fs.store)
    (req : request) (r : response) :
  (Legacy.server dirname fs req).2 = Responded r -> Legacy.has_cors (headers r).
Proof.
  intros H.
  destruct (legacy_outcome_shape dirname fs req) as [[e He]|(st & hs & b & Hf & Hs)];
    [congruence|].
  rewrite Hs, (writeHead_end_legacy st hs b Hf) in H.
  destruct (writeHead_end st hs b cors) as [r'|e] eqn:E; [|discriminate H].
  destruct (writeHead_end_cors st hs b r' Hf E) as (H1 & _ & H3).
  cbn [Legacy.relabel] in H. injection H as <-. cbn [headers].
  unfold Legacy.has_cors.
  rewrite getHeader_setHeader_same.
  rewrite !getHeader_setHeader_other by discriminate. auto.
Qed.

Lemma legacy_cors_on_every_response_witness :
  exists r, (Legacy.server Demo.dir Demo.fs0 (Demo.GET "/files")).2 = Responded r
            /\ Legacy.has_cors (headers r).
Proof.
  eexists. split; [vm_compute; reflexivity|].
  apply (legacy_cors_on_every_response Demo.dir Demo.fs0 (Demo.GET "/files")).
  vm_compute. reflexivity.
Defined.

(** X19. The older server has no delete route: a DELETE request, whatever
    its URL, removes nothing and is answered 200 with the client page as
    [text/html] (not with JSON). *)
Theorem legacy_delete_gets_the_page (dirname : list string) (fs : Fs.store)
    (u : string) (frm : parsed) (page : Fs.bytes) :
  Fs.readFile fs (Path.join dirname "client.html") = inr page ->
  Legacy.server dirname fs (mk_request "DELETE" u frm)
  = (fs, Responded
           (mk_response 200
              [ ("Access-Control-Allow-Origin", "*");
                ("Access-Control-Allow-Methods", "GET, POST, OPTIONS");
                ("Access-Control-Allow-Headers", "Content-Type, X-Requested-With");
                ("Content-Type", "text/html") ]
              (Data page))).
Proof.
  intros Hpage. unfold Legacy.server. cbn [method url].
  change (String.eqb "DELETE" "OPTIONS") with false.
  change (String.eqb "DELETE" "POST") with false.
  change (String.eqb "DELETE" "GET") with false.
  rewrite !andb_false_r. unfold Legacy.handle_fallback. now rewrite Hpage.
Qed.

Lemma legacy_delete_gets_the_page_witness :
  (Legacy.server Demo.dir
     (<[["srv"; "client.html"] := Fs.File Demo.page]> Demo.fs_hello)
     (Demo.DELETE "/delete/hello.txt")).1
  = <[["srv"; "client.html"] := Fs.File Demo.page]> Demo.fs_hello.
Proof.
  unfold Demo.DELETE.
  rewrite (legacy_delete_gets_the_page Demo.dir _ "/delete/hello.txt"
             (Parsed Undefined) Demo.page); [reflexivity|].
  vm_compute. reflexivity.
Defined.

(** ** How uploads and deletes compose *)






(** ** Edge cases of the download and delete routes *)

(** X22. A download of an entry that exists under a name that is not a
    legal header value (a control character, or a character above
    U+00FF) gets no response: [writeHead] throws while the
    [Content-Disposition] header is set, and the disk is untouched. *)
Theorem download_illegal_name_throws (dirname : list string) (fs : Fs.store)
    (u name : string) (frm : parsed) (n : Fs.node) :
  startsWith "/download/" u = true ->
  decodeURIComponent (pop (split_slash u)) = Some name ->
  Fs.stat fs (Path.join (UPLOAD_DIR dirname) name) = inr n ->
  header_value_ok name = false ->
  server dirname fs (mk_request "GET" u frm) = (fs, Threw ERR_INVALID_CHAR).
Proof.
  intros Hu Hd Hst Hbad. rewrite (download_cases dirname fs u name frm Hu Hd).
  unfold Fs.access. now rewrite Hst, Hbad.
Qed.

Lemma download_illegal_name_throws_witness :
  server Demo.dir Demo.fs_two_lines (mk_request "GET" "/download/a%0Ab" (Parsed Undefined))
  = (Demo.fs_two_lines, Threw ERR_INVALID_CHAR).
Proof.
  apply (download_illegal_name_throws Demo.dir Demo.fs_two_lines "/download/a%0Ab"
           Demo.two_lines (Parsed Undefined) (Fs.File Demo.abc)).
  - reflexivity.
  - reflexivity.
  - vm_compute. reflexivity.
  - reflexivity.
Defined.

(** X23. The empty name stands for the upload directory itself: on a disk
    where that directory exists, GET /download/ is answered 200 with the
    attachment headers and the text "Error downloading file.", and DELETE
    /delete/ is answered 500 and removes nothing. *)
Theorem empty_name_is_the_upload_directory (dirname : list string)
    (fs : Fs.store) (frm : parsed) :
  Fs.walk fs [] (UPLOAD_DIR dirname) = inr Fs.Dir ->
  server dirname fs (mk_request "GET" "/download/" frm)
  = (fs, Responded (mk_response 200 (attachment "") (Text "Error downloading file.")))
  /\ server dirname fs (mk_request "DELETE" "/delete/" frm)
     = (fs, Responded
              (mk_response 500 json_headers
                 (failure ("Failed to delete file: "
                           ++ Fs.message Fs.EISDIR "unlink"
                                (Path.mk_fpath (UPLOAD_DIR dirname) false))%string))).
Proof.
  intros Hdir.
  assert (Hl : Fs.lstat fs (Path.join (UPLOAD_DIR dirname) "") = inr Fs.Dir).
  { unfold Fs.lstat, Fs.as_directory. change (Path.join (UPLOAD_DIR dirname) "")
      with (Path.mk_fpath (UPLOAD_DIR dirname) false).
    cbn [Path.comps Path.trailing]. now rewrite Hdir. }
  split.
  - rewrite (download_cases dirname fs "/download/" "" frm eq_refl eq_refl).
    unfold Fs.access, Fs.readFile.
    now rewrite (lstat_stat _ _ _ Hl ltac:(discriminate)).
  - rewrite (delete_cases dirname fs "/delete/" "" frm eq_refl eq_refl).
    unfold Fs.unlink. now rewrite Hl.
Qed.

Lemma empty_name_is_the_upload_directory_witness :
  (server Demo.dir Demo.fs_hello (mk_request "DELETE" "/delete/" (Parsed Undefined))).1
  = Demo.fs_hello.
Proof.
  destruct (empty_name_is_the_upload_directory Demo.dir Demo.fs_hello (Parsed Undefined))
    as [_ H].
  - vm_compute. reflexivity.
  - now rewrite H.
Defined.

(** ** Start-up *)

Lemma mkdir_p_keeps (fs : Fs.store) (cur rest q : list string) (x : Fs.node) :
  fs !! q = Some x -> mkdir_p fs cur rest !! q = Some x.
Proof.
  revert fs cur. induction rest as [|c rest IH]; intros fs cur Hq; [exact Hq|].
  cbn [mkdir_p]. apply IH.
  destruct (fs !! (cur ++ [c])) eqn:E; [exact Hq|].
  rewrite lookup_insert_ne; [exact Hq | congruence].
Qed.

Lemma mkdir_p_walk (fs : Fs.store) (cur rest : list string) :
  Fs.walk fs [] cur = inr Fs.Dir ->
  (forall a b, rest = a ++ b -> a <> [] ->
     fs !! (cur ++ a) = None \/ fs !! (cur ++ a) = Some Fs.Dir) ->
  Fs.walk (mkdir_p fs cur rest) [] (cur ++ rest) = inr Fs.Dir.
Proof.
  revert fs cur. induction rest as [|c rest IH]; intros fs cur Hcur Hfree.
  - now rewrite app_nil_r.
  - cbn [mkdir_p].
    rewrite (app_assoc cur [c] rest : cur ++ c :: rest = (cur ++ [c]) ++ rest).
    assert (Hhere : cur ++ [c] <> []) by (destruct cur; discriminate).
    apply IH.
    + destruct (fs !! (cur ++ [c])) as [x|] eqn:E.
      * destruct (Hfree [c] rest eq_refl ltac:(discriminate)) as [H|H]; [congruence|].
        rewrite walk_snoc, Hcur. simpl. now apply node_at_dir.
      * rewrite walk_snoc, walk_insert_longer, Hcur. simpl.
        apply node_at_dir. now rewrite lookup_insert_eq.
    + intros a b Hab Ha. rewrite <- app_assoc.
      assert (Hlong : cur ++ [c] <> cur ++ [c] ++ a).
      { intros E'. apply app_inv_head in E'. destruct a; [congruence|discriminate]. }
      assert (Hold : fs !! (cur ++ [c] ++ a) = None
                     \/ fs !! (cur ++ [c] ++ a) = Some Fs.Dir).
      { apply (Hfree (c :: a) b); [now rewrite Hab | discriminate]. }
      destruct (fs !! (cur ++ [c])); [exact Hold|].
      now rewrite lookup_insert_ne.
Qed.

(** X24. Start-up makes the upload directory exist: when no component of
    its path is taken by something that is not a directory, the upload
    directory is a directory after start-up; what was on the disk is
    still there; and when the directory existed, start-up does nothing. *)
Theorem startup_provides_upload_dir (dirname : list string) (fs : Fs.store) :
  (forall a b, UPLOAD_DIR dirname = a ++ b -> a <> [] ->
     fs !! a = None \/ fs !! a = Some Fs.Dir) ->
  Fs.walk (startup dirname fs) [] (UPLOAD_DIR dirname) = inr Fs.Dir
  /\ (forall q x, fs !! q = Some x -> startup dirname fs !! q = Some x)
  /\ (Fs.walk fs [] (UPLOAD_DIR dirname) = inr Fs.Dir -> startup dirname fs = fs).
Proof.
  intros Hfree. unfold startup, Fs.access, Fs.stat, Fs.as_directory.
  cbn [Path.comps Path.trailing].
  destruct (Fs.walk fs [] (UPLOAD_DIR dirname)) as [e|n] eqn:Hw.
  - split; [|split].
    + apply (mkdir_p_walk fs [] (UPLOAD_DIR dirname) eq_refl). exact Hfree.
    + intros q x. apply mkdir_p_keeps.
    + discriminate.
  - assert (Hn : n = Fs.Dir).
    { assert (Hne : UPLOAD_DIR dirname <> []) by (unfold UPLOAD_DIR; destruct dirname; discriminate).
      pose proof (walk_lookup fs [] _ n Hw Hne) as Hl. simpl in Hl.
      destruct (Hfree (UPLOAD_DIR dirname) [] (eq_sym (app_nil_r _)) Hne); congruence. }
    subst n. split; [exact Hw|]. split; auto.
Qed.

Lemma startup_provides_upload_dir_witness :
  Fs.walk (startup Demo.dir ∅) [] (UPLOAD_DIR Demo.dir) = inr Fs.Dir.
Proof.
  apply (startup_provides_upload_dir Demo.dir ∅).
  intros a b _ _. left. apply lookup_empty.
Defined.

(** ** The content type of a static file *)

Lemma from_last_dot_none (e : string) :
  has_dot e = false -> Path.from_last_dot e = None.
Proof.
  induction e as [|c e IH]; cbn [has_dot Path.from_last_dot]; [reflexivity|].
  destruct (Ascii.eqb c "."); [discriminate|]. intros H. now rewrite (IH H).
Qed.

Lemma from_last_dot_app (x e : string) :
  has_dot e = false ->
  Path.from_last_dot (x +:+ String "." e) = Some (String "." e).
Proof.
  intros He. induction x as [|c x IH].
  - change ("" +:+ String "." e) with (String "." e).
    cbn [Path.from_last_dot]. now rewrite (from_last_dot_none e He).
  - change (String c x +:+ String "." e) with (String c (x +:+ String "." e)).
    cbn [Path.from_last_dot]. now rewrite IH.
Qed.

(** The extension of [<stem>.<ext>] is [.<ext>] when the stem is not empty
    and [ext] has no dot; a name whose only dot comes first has none. *)
Lemma extname_base_spec (c : ascii) (x e : string) :
  has_dot e = false ->
  (String c x +:+ String "." e <> ".." ->
   Path.extname_base (String c x +:+ String "." e) = String "." e)
  /\ Path.extname_base (String "." e) = "".
Proof.
  intros He. split.
  - intros Hne. unfold Path.extname_base.
    destruct (String.eqb_spec (String c x +:+ String "." e) "..") as [E|_];
      [contradiction|].
    change (String c x +:+ String "." e) with (String c (x +:+ String "." e)).
    cbv beta iota. now rewrite from_last_dot_app.
  - unfold Path.extname_base.
    destruct (String.eqb (String "." e) ".."); [reflexivity|].
    now rewrite (from_last_dot_none e He).
Qed.

Lemma join_slash_name (base : list string) (n : string) :
  Path.valid_name n = true ->
  Path.join base ("/" ++ n) = Path.mk_fpath (base ++ [n]) false.
Proof.
  intros Hv. pose proof (join_valid_name base n Hv) as Hj.
  destruct (valid_name_facts n Hv) as (H0 & _ & _ & Hs).
  unfold Path.join in *. rewrite (split_slash_plain _ Hs) in Hj.
  cbn [fold_left] in Hj. injection Hj as Hj He.
  change (split_slash ("/" ++ n)) with ("" :: split_slash n).
  change ("/" ++ n)%string with (String "/" n).
  rewrite (split_slash_plain _ Hs), (ends_with_slash_cons _ _ H0), He.
  cbn [fold_left]. change (Path.norm_step base "") with base. now rewrite Hj.
Qed.

Lemma toLowerCase_dot (e : string) :
  toLowerCase (String "." e) = String "." (toLowerCase e).
Proof. reflexivity. Qed.

(** X25. The content type of a static file hangs on what follows the last
    dot of its name, letter case apart: a readable file [<stem>.<ext>] of
    the public directory is answered with the type the MIME table gives
    for [.<ext>] in lower case, and [application/octet-stream] when the
    table has none; so is a file whose only dot is its first character.
    The bytes of the file are the body unless the method is HEAD. *)
Theorem static_type_by_extension (dirname : list string) (fs : Fs.store)
    (m : string) (c : ascii) (x e : string) (bs : Fs.bytes) (frm : parsed) :
  has_dot e = false ->
  (let name := (String c x +:+ String "." e) in
   Path.valid_name name = true ->
   other_route (mk_request m ("/" ++ name) frm) = false ->
   Fs.walk fs [] (PUBLIC_DIR dirname ++ [name]) = inr (Fs.File bs) ->
   server dirname fs (mk_request m ("/" ++ name) frm)
   = (fs, Responded
            (mk_response 200
               (with_cors
                  [("Content-Type",
                    default "application/octet-stream"
                      (getHeader (String "." (toLowerCase e)) mimeTypes))])
               (on_wire m (Data bs)))))
  /\ (let name := String "." e in
      Path.valid_name name = true ->
      other_route (mk_request m ("/" ++ name) frm) = false ->
      Fs.walk fs [] (PUBLIC_DIR dirname ++ [name]) = inr (Fs.File bs) ->
      server dirname fs (mk_request m ("/" ++ name) frm)
      = (fs, Responded
               (mk_response 200
                  (with_cors [("Content-Type", "application/octet-stream")])
                  (on_wire m (Data bs))))).
Proof.
  intros He.
  assert (G : forall name ext,
            Path.valid_name name = true -> Path.extname_base name = ext ->
            other_route (mk_request m ("/" ++ name) frm) = false ->
            Fs.walk fs [] (PUBLIC_DIR dirname ++ [name]) = inr (Fs.File bs) ->
            server dirname fs (mk_request m ("/" ++ name) frm)
            = (fs, Responded
                     (mk_response 200
                        (with_cors
                           [("Content-Type",
                             default "application/octet-stream"
                               (getHeader (toLowerCase ext) mimeTypes))])
                        (on_wire m (Data bs))))).
  { intros name ext Hv Hext Hroute Hw.
    rewrite (route_static _ _ _ Hroute). unfold handle_static. cbn [url].
    destruct (valid_name_facts name Hv) as (H0 & _).
    assert (Hnot : String.eqb ("/" ++ name) "/" = false).
    { apply String.eqb_neq. change ("/" ++ name)%string with (String "/" name).
      intros E. injection E as E. contradiction. }
    rewrite Hnot. cbv zeta. rewrite (join_slash_name _ _ Hv).
    unfold Path.extname. cbn [Path.comps]. rewrite last_last, Hext.
    unfold Fs.readFile, Fs.stat, Fs.as_directory.
    cbn [Path.comps Path.trailing method].
    rewrite Hw. unfold writeHead_end. cbn [forallb snd].
    now rewrite mime_value_ok. }
  destruct (extname_base_spec c x e He) as [E1 E2].
  split; intros name Hv Hroute Hw.
  - destruct (valid_name_facts name Hv) as (_ & _ & Hdd & _).
    rewrite (G name _ Hv (E1 Hdd) Hroute Hw). now rewrite toLowerCase_dot.
  - rewrite (G name _ Hv E2 Hroute Hw). reflexivity.
Qed.

Lemma static_type_by_extension_witness :
  server Demo.dir
    (<[["srv"; "public"; "Logo.min.PNG"] := Fs.File Demo.xyz]> Demo.fs_page)
    (mk_request "GET" "/Logo.min.PNG" (Parsed Undefined))
  = (<[["srv"; "public"; "Logo.min.PNG"] := Fs.File Demo.xyz]> Demo.fs_page,
     Responded (mk_response 200 (with_cors [("Content-Type", "image/png")])
                  (Data Demo.xyz))).
Proof.
  destruct (static_type_by_extension Demo.dir
              (<[["srv"; "public"; "Logo.min.PNG"] := Fs.File Demo.xyz]> Demo.fs_page)
              "GET" "L"%char "ogo.min" "PNG" Demo.xyz (Parsed Undefined) eq_refl)
    as [H _].
  apply H.
  - reflexivity.
  - reflexivity.
  - vm_compute. reflexivity.
Defined.

(** X26. The older server writes to the disk through POST /upload only:
    no other request changes any entry. *)
Theorem legacy_store_changes_only_on_upload (dirname : list string)
    (fs : Fs.store) (req : request) :
  (Legacy.server dirname fs req).1 <> fs ->
  url req = "/upload" /\ method req = "POST".
Proof.
  unfold Legacy.server. intros H.
  destruct (String.eqb (method req) "OPTIONS"); [now elim H|].
  destruct (String.eqb_spec (url req) "/upload") as [Hu|_];
    destruct (String.eqb_spec (method req) "POST") as [Hm|_]; cbn [andb] in H;
    try (now split).
  all: destruct (String.eqb (url req) "/files" && String.eqb (method req) "GET");
    [elim H; unfold Legacy.handle_files; now destruct (Fs.readdir fs _) as [[]|]|].
  all: destruct (startsWith "/download/" (url req) && String.eqb (method req) "GET");
    [elim H; unfold Legacy.handle_download;
     destruct (decodeURIComponent _);
     [now destruct (Fs.access fs _) as [[]|]|reflexivity]|].
  all: destruct (String.eqb (url req) "/client.js" && String.eqb (method req) "GET");
    [elim H; unfold Legacy.handle_client_js;
     now destruct (Fs.readFile fs _) as [[]|]|].
  all: elim H; unfold Legacy.handle_fallback;
    now destruct (Fs.readFile fs _) as [[]|].
Qed.

Lemma legacy_store_changes_only_on_upload_witness :
  (Legacy.server Demo.dir Demo.fs0
     (Demo.POST_upload (mk_upload "f3a9" "hello.txt" Demo.abc))).1 <> Demo.fs0
  /\ url (Demo.POST_upload (mk_upload "f3a9" "hello.txt" Demo.abc)) = "/upload".
Proof.
  assert (Hne : (Legacy.server Demo.dir Demo.fs0
                   (Demo.POST_upload (mk_upload "f3a9" "hello.txt" Demo.abc))).1
                <> Demo.fs0).
  { intros E.
    apply (f_equal (fun m : Fs.store => m !! ["srv"; "uploads"; "hello.txt"])) in E.
    vm_compute in E. discriminate E. }
  split; [exact Hne|].
  exact (proj1 (legacy_store_changes_only_on_upload Demo.dir Demo.fs0 _ Hne)).
Defined.

(** ** Names that Node or the file system refuses *)

Lemma nul_not_dots (n : string) :
  Path.has_nul n = true -> n <> "" /\ n <> "." /\ n <> "..".
Proof. intros H. repeat split; intros ->; discriminate H. Qed.


(** X27. A download or a delete whose decoded name is one component with
    a NUL byte in it gets no response: [fs.access] and [fs.unlink] throw
    on the path before their callback is registered, nothing catches the
    exception, and the disk is untouched. *)
Theorem nul_name_throws (dirname : list string) (fs : Fs.store)
    (u u' name : string) (frm : parsed) :
  startsWith "/download/" u = true ->
  decodeURIComponent (pop (split_slash u)) = Some name ->
  startsWith "/delete/" u' = true ->
  decodeURIComponent (pop (split_slash u')) = Some name ->
  Path.has_nul name = true ->
  has_slash name = false ->
  fs !! (UPLOAD_DIR dirname ++ [name]) = None ->
  server dirname fs (mk_request "GET" u frm) = (fs, Threw ERR_INVALID_ARG_VALUE)
  /\ server dirname fs (mk_request "DELETE" u' frm) = (fs, Threw ERR_INVALID_ARG_VALUE).
Proof.
  intros Hu Hd Hu' Hd' Hnul Hs Hnone.
  destruct (nul_not_dots name Hnul) as (H0 & H1 & H2).
  assert (Hw : Fs.walk fs [] (UPLOAD_DIR dirname ++ [name])
               = inl Fs.ERR_INVALID_ARG_VALUE)
    by (apply walk_nul_name; [exact Hnul | congruence]).
  split.
  - rewrite (download_cases dirname fs u name frm Hu Hd).
    rewrite (join_one_component _ _ H0 H1 H2 Hs).
    unfold Fs.access, Fs.stat. cbn [Path.comps]. now rewrite Hw.
  - rewrite (delete_cases dirname fs u' name frm Hu' Hd').
    rewrite (join_one_component _ _ H0 H1 H2 Hs).
    unfold Fs.unlink, Fs.lstat. cbn [Path.comps]. now rewrite Hw.
Qed.

Lemma nul_name_throws_witness :
  decodeURIComponent (pop (split_slash "/download/a%00b")) = Some Demo.nul_name
  /\ server Demo.dir Demo.fs_hello (Demo.GET "/download/a%00b")
     = (Demo.fs_hello, Threw ERR_INVALID_ARG_VALUE).
Proof.
  split; [reflexivity|].
  refine (proj1 (nul_name_throws Demo.dir Demo.fs_hello "/download/a%00b"
                   "/delete/a%00b" Demo.nul_name (Parsed Undefined) _ _ _ _ _ _ _));
    reflexivity.
Defined.



(** ** HEAD requests *)

(** X29. No route tests for the method HEAD, so a HEAD request, whatever
    its URL, falls to the static files: it changes nothing on the disk
    and its answer, whether 200, 404 or 500, goes out without a body. *)
Theorem head_gets_headers_only (dirname : list string) (fs : Fs.store)
    (u : string) (frm : parsed) (r : response) :
  (server dirname fs (mk_request "HEAD" u frm)).2 = Responded r ->
  (server dirname fs (mk_request "HEAD" u frm)).1 = fs
  /\ content r = NoBody
  /\ (status r = 200 \/ status r = 404 \/ status r = 500).
Proof.
  assert (Hroute : other_route (mk_request "HEAD" u frm) = false).
  { unfold other_route. cbn [method url].
    change (String.eqb "HEAD" "OPTIONS") with false.
    change (String.eqb "HEAD" "POST") with false.
    change (String.eqb "HEAD" "GET") with false.
    change (String.eqb "HEAD" "DELETE") with false.
    now rewrite !andb_false_r. }
  rewrite (route_static _ _ _ Hroute). unfold handle_static. cbn [url method].
  change (on_wire "HEAD") with (fun _ : body => NoBody). cbv beta zeta.
  destruct (Fs.readFile fs _) as [[]|bs]; cbn [fst snd];
    try discriminate;
    try (intros [= <-]; cbn [content status]; auto).
  unfold writeHead_end. cbn [forallb snd]. rewrite mime_value_ok.
  intros [= <-]. cbn [content status]. auto.
Qed.

Lemma head_gets_headers_only_witness :
  exists r,
    (server Demo.dir Demo.fs_page (mk_request "HEAD" "/" (Parsed Undefined))).2
    = Responded r
    /\ status r = 200 /\ content r = NoBody.
Proof.
  eexists. split; [vm_compute; reflexivity|]. split; [reflexivity|].
  apply (head_gets_headers_only Demo.dir Demo.fs_page "/" (Parsed Undefined)).
  vm_compute. reflexivity.
Defined.

(** ** File parts under other fields *)

(** X30. formidable stages the file parts of every field, and the
    handler looks at [myFile] only: after an upload answered 200, a file
    that came under another field is still in the upload directory under
    its staging name, with its bytes. *)
Theorem other_fields_stay_staged (dirname : list string) (fs : Fs.store)
    (f g : upload) (others : list upload) :
  let up := mk_request "POST" "/upload" (ParsedAlso others (One f)) in
  status_of (server dirname fs up).2 = Some 200 ->
  List.NoDup (map newFilename (f :: others)) ->
  In g others ->
  Path.comps (Path.join (UPLOAD_DIR dirname) (originalFilename f))
  <> UPLOAD_DIR dirname ++ [newFilename g] ->
  (server dirname fs up).1 !! (UPLOAD_DIR dirname ++ [newFilename g])
  = Some (Fs.File (data g)).
Proof.
  intros up. unfold up. rewrite upload_cases.
  cbn [after_parse myFile_of uploadedFile staged]. cbv zeta.
  destruct (Fs.rename _ _ _) as [e|fs2] eqn:Hr;
    [destruct e; cbn [fst snd status_of status]; discriminate|].
  cbn [fst snd status_of status]. intros _ Hnd Hin Htarget.
  apply rename_success in Hr as (n & _ & _ & -> & _); [|apply filepath_not_root].
  simpl in Hnd. apply List.NoDup_cons_iff in Hnd as [Hf Hnd].
  assert (Hfg : UPLOAD_DIR dirname ++ [newFilename f]
                <> UPLOAD_DIR dirname ++ [newFilename g]).
  { intros E. apply app_inj_tail in E as [_ E].
    apply Hf. rewrite E. now apply in_map. }
  rewrite lookup_insert_ne by exact Htarget.
  cbn [filepath Path.comps]. rewrite lookup_delete_ne by exact Hfg.
  unfold stage at 1. cbn [filepath Path.comps].
  rewrite lookup_insert_ne by exact Hfg.
  now apply fold_stage_lookup.
Qed.

Lemma other_fields_stay_staged_witness :
  (server Demo.dir Demo.fs0
     (mk_request "POST" "/upload"
        (ParsedAlso [mk_upload "b7c1" "notes.md" Demo.xyz]
           (One (mk_upload "f3a9" "hello.txt" Demo.abc))))).1
  !! ["srv"; "uploads"; "b7c1"] = Some (Fs.File Demo.xyz).
Proof.
  apply (other_fields_stay_staged Demo.dir Demo.fs0
           (mk_upload "f3a9" "hello.txt" Demo.abc) (mk_upload "b7c1" "notes.md" Demo.xyz)
           [mk_upload "b7c1" "notes.md" Demo.xyz]).
  - vm_compute. reflexivity.
  - repeat constructor; simpl; intuition discriminate.
  - now left.
  - vm_compute. discriminate.
Defined.
